(** * RustDesk Server Monitor: presence and telemetry aggregation

    A shallow embedding of [rustdesk_server.py] and the properties of its
    presence table, its monitor database and the merged device listing.

    Conventions of the embedding.
    - A Python [str] is a Rocq [string], one [ascii] per character, so the
      texts covered are those whose characters lie below U+0100.  The
      literals of the source outside that range (the texts of its
      answers, its word for an unknown value) are kept as written and
      are only ever compared and copied.
    - A [datetime] is the number of microseconds it denotes, a [Z];
      subtracting two of them gives a [timedelta], again in microseconds.
      SQLite stores a [datetime] as its ISO text, whose order is the order
      of these numbers.
    - [datetime.now()] reads the next value of a clock that is part of
      the state, so that every reading of the source is a reading here.
    - The two SQLite files are available and healthy: a statement fails
      only for the reason the data gives it.  [logger] calls are left out.
    - A value decoded from JSON is a [pyval]; floats, lists and nested
      objects, of which the program only takes the truth value and the
      [str()], carry these two observations.  [json.loads] and
      [request.json()] are library code: a registry row and a request
      carry what they return.
    - The registry's [id] and [created_at] columns hold TEXT or NULL, as
      the registry writes them; numeric timestamps, which the adapter
      formats through the host's local time, are outside the model.
    - [int()] reads at most 4300 digits, the interpreter's default; an
      integer decoded from JSON is within that bound, where [str()] of it
      is defined. *)

From Stdlib Require Import ZArith String Ascii DecimalString Lia.
From stdpp Require Import gmap strings list fin_maps sorting.

Local Open Scope Z_scope.

(** ** Python values *)

Inductive pyval :=
| PyNone
| PyBool (b : bool)
| PyInt (z : Z)
| PyStr (s : string)
| PyOpaque (truth : bool) (shown : string).

(** [bool(v)] *)
Definition py_bool (v : pyval) : bool :=
  match v with
  | PyNone => false
  | PyBool b => b
  | PyInt z => negb (z =? 0)
  | PyStr s => negb (String.eqb s "")
  | PyOpaque t _ => t
  end.

(** [str(v)] *)
Definition py_str (v : pyval) : string :=
  match v with
  | PyNone => "None"
  | PyBool true => "True"
  | PyBool false => "False"
  | PyInt z => NilZero.string_of_int (Z.to_int z)
  | PyStr s => s
  | PyOpaque _ s => s
  end.

(** [s[:n]] *)
Fixpoint slice_to (n : nat) (s : string) : string :=
  match n, s with
  | S n', String c s' => String c (slice_to n' s')
  | _, _ => ""
  end.

Definition code (c : ascii) : N := N_of_ascii c.

(** A decimal character, the only kind [int()] reads as a digit. *)
Definition isdecimal_char (c : ascii) : bool :=
  ((48 <=? code c) && (code c <=? 57))%N.

(** [str.isdigit] on one character: the decimal digits and the
    superscripts U+00B2, U+00B3, U+00B9. *)
Definition isdigit_char (c : ascii) : bool :=
  isdecimal_char c || (code c =? 178)%N || (code c =? 179)%N || (code c =? 185)%N.

(** Whitespace for [str.strip]: the characters [str.isspace] accepts. *)
Definition isspace_char (c : ascii) : bool :=
  ((9 <=? code c) && (code c <=? 13) || (28 <=? code c) && (code c <=? 32)
   || (code c =? 133) || (code c =? 160))%N.

(** Whitespace [int()] skips around a number: the ASCII blanks, and the
    two other spaces, which it first turns into blanks. *)
Definition int_space_char (c : ascii) : bool :=
  ((9 <=? code c) && (code c <=? 13) || (code c =? 32)
   || (code c =? 133) || (code c =? 160))%N.

Fixpoint all_chars (p : ascii → bool) (s : string) : bool :=
  match s with
  | "" => true
  | String c s' => p c && all_chars p s'
  end.

(** [s.isdigit()] *)
Definition isdigit (s : string) : bool :=
  negb (String.eqb s "") && all_chars isdigit_char s.

Fixpoint lstrip_of (space : ascii → bool) (s : string) : string :=
  match s with
  | "" => ""
  | String c s' => if space c then lstrip_of space s' else s
  end.

Definition strip_of (space : ascii → bool) (s : string) : string :=
  String.rev (lstrip_of space (String.rev (lstrip_of space s))).

(** [s.strip()] *)
Definition strip (s : string) : string := strip_of isspace_char s.

(** [s.split(",")[0]] *)
Fixpoint before_comma (s : string) : string :=
  match s with
  | "" => ""
  | String c s' => if Ascii.eqb c "," then "" else String c (before_comma s')
  end.

(** The digits of an integer literal: decimal characters, single
    underscores allowed between two of them. *)
Fixpoint int_digits (acc : Z) (after_digit : bool) (s : string) : option Z :=
  match s with
  | "" => if after_digit then Some acc else None
  | String c s' =>
      if isdecimal_char c
      then int_digits (10 * acc + (Z.of_N (code c) - 48)) true s'
      else if Ascii.eqb c "_" && after_digit
           then int_digits acc false s'
           else None
  end.

(** The most digits [int()] reads from a string, as the interpreter
    sets it by default. *)
Definition INT_MAX_STR_DIGITS : Z := 4300.

Fixpoint count_chars (p : ascii → bool) (s : string) : Z :=
  match s with
  | "" => 0
  | String c s' => (if p c then 1 else 0) + count_chars p s'
  end.

(** The number after the sign. *)
Definition int_unsigned (s : string) : option Z :=
  if INT_MAX_STR_DIGITS <? count_chars isdecimal_char s
  then None
  else int_digits 0 false s.

(** [int(s)] for a [str]: [None] stands for [ValueError]. *)
Definition int_of_str (s : string) : option Z :=
  match strip_of int_space_char s with
  | String "+" r => int_unsigned r
  | String "-" r => Z.opp <$> int_unsigned r
  | r => int_unsigned r
  end.

(** [d.get(key, default)] *)
Definition dict_get (d : gmap string pyval) (key : string) (dflt : pyval) : pyval :=
  from_option id dflt (d !! key).

Definition str_bool (s : string) : bool := negb (String.eqb s "").

(** The text the source uses for a value it does not know. *)
Definition UNKNOWN : string := "未知".

(** ** Time *)

Definition timedelta (seconds : Z) : Z := seconds * 1000000.

Definition OFFLINE_TIMEOUT_SECONDS : Z := 90.

(** [t.strftime("%Y-%m-%d %H:%M:%S")] shows the whole second of [t];
    [Never] is the text the listing puts in its place. *)
Inductive heartbeat_time :=
| Never
| Strftime (second : Z).

Definition strftime (t : Z) : heartbeat_time := Strftime (t / 1000000).

(** ** Data *)

(** What [json.loads] or [request.json()] returned: a [dict], or a value
    of another type (list, str, number, bool, None). *)
Inductive json_value :=
| JsonObject (d : gmap string pyval)
| JsonOther.

(** A row of the registry's [peer] table, with the columns the query
    selects.  [id] and [created_at] are TEXT or NULL, as the registry
    writes them.  [json.loads] is library code: [info_json] records what
    it gives on this row's [info], [None] when it raises. *)
Module PeerRow.
Record t := make {
  id : option string;
  created_at : option string;
  info : option string;
  info_json : option json_value
}.
End PeerRow.

(** An element of the list [get_all_peer_ids] returns. *)
Module Peer.
Record t := make {
  id : string;
  created_at : string;
  ip : string
}.
End Peer.

(** A row of [device_info], keyed by its [id]. *)
Module DeviceInfo.
Record t := make {
  hostname : string;
  username : string;
  os : string;
  cpu : string;
  memory : string;
  version : string;
  uuid : string;
  created_at : Z;
  last_seen : Z;
  last_ip : string
}.
End DeviceInfo.

(** A row of [heartbeat_logs], keyed by its AUTOINCREMENT [id]. *)
Module HeartbeatLog.
Record t := make {
  device_id : string;
  ip_address : string;
  timestamp : Z;
  version : option Z
}.
End HeartbeatLog.

(** A row of [device_notes], keyed by its [device_id]. *)
Module DeviceNote.
Record t := make {
  note : string;
  updated_at : Z
}.
End DeviceNote.

(** The monitor database: its three tables and the AUTOINCREMENT
    counter SQLite keeps for [heartbeat_logs]. *)
Module MonitorDb.
Record t := make {
  device_info : gmap string DeviceInfo.t;
  heartbeat_logs : gmap Z HeartbeatLog.t;
  heartbeat_seq : Z;
  device_notes : gmap string DeviceNote.t
}.
End MonitorDb.

(** A value of the [online_devices] dict. *)
Module Online.
Record t := make {
  last_heartbeat : Z;
  ip : string;
  info : gmap string pyval
}.
End Online.

(** An element of the [devices] list of the listing. *)
Module Device.
Record t := make {
  id : string;
  note : string;
  created_at : string;
  original_ip : string;
  hostname : string;
  username : string;
  os : string;
  cpu : string;
  memory : string;
  version : string;
  last_ip : string;
  is_online : bool;
  last_heartbeat_time : heartbeat_time
}.
End Device.

(** The state the program runs in.  [peer_db] is [None] when the
    registry file does not exist. *)
Record World := mkWorld {
  clock : nat → Z;
  ticks : nat;
  peer_db : option (list PeerRow.t);
  monitor_db : MonitorDb.t;
  online_devices : gmap string Online.t
}.

Definition set_ticks (n : nat) (w : World) : World :=
  mkWorld (clock w) n (peer_db w) (monitor_db w) (online_devices w).

Definition set_monitor_db (db : MonitorDb.t) (w : World) : World :=
  mkWorld (clock w) (ticks w) (peer_db w) db (online_devices w).

Definition set_online_devices (o : gmap string Online.t) (w : World) : World :=
  mkWorld (clock w) (ticks w) (peer_db w) (monitor_db w) o.

(** ** Computations that may raise *)

Inductive exception :=
| HTTPException (status_code : Z) (detail : string)
| ValueError
| TypeError
| OverflowError
| AttributeError
| JSONDecodeError.

Inductive outcome (A : Type) :=
| Returns (a : A)
| Raises (e : exception).
Arguments Returns {A} a.
Arguments Raises {A} e.

Definition Py (A : Type) : Type := World → outcome A * World.

#[export] Instance Py_ret : MRet Py := λ A a w, (Returns a, w).

#[export] Instance Py_bind : MBind Py := λ A B f m w,
  match m w with
  | (Returns a, w') => f a w'
  | (Raises e, w') => (Raises e, w')
  end.

Definition raise {A} (e : exception) : Py A := λ w, (Raises e, w).

(** [try: body except Exception as e: handler e] *)
Definition try_except {A} (body : Py A) (handler : exception → Py A) : Py A := λ w,
  match body w with
  | (Returns a, w') => (Returns a, w')
  | (Raises e, w') => handler e w'
  end.

(** [datetime.now()] *)
Definition datetime_now : Py Z := λ w,
  (Returns (clock w (ticks w)), set_ticks (S (ticks w)) w).

(** Reading a part of the state. *)
Definition gets {A} (f : World → A) : Py A := λ w, (Returns (f w), w).

(** A query on the monitor database, and a statement followed by its
    commit. *)
Definition query {A} (q : MonitorDb.t → A) : Py A := λ w,
  (Returns (q (monitor_db w)), w).

Definition execute (stmt : MonitorDb.t → MonitorDb.t) : Py unit := λ w,
  (Returns (), set_monitor_db (stmt (monitor_db w)) w).

(** [online_devices[device_id] = entry] *)
Definition online_devices_setitem (device_id : string) (entry : Online.t) : Py unit := λ w,
  (Returns (), set_online_devices (<[device_id := entry]> (online_devices w)) w).

(** The final state and the result of a computation. *)
Definition state_after {A} (m : Py A) (w : World) : World := (m w).2.
Definition result_of {A} (m : Py A) (w : World) : outcome A := (m w).1.

(** ** DatabaseManager *)

Module DatabaseManager.

(** *** update_device_info *)

(** [INSERT INTO device_info (...) VALUES (...)] *)
Definition insert_device_info (device_id : string) (row : DeviceInfo.t)
    (db : MonitorDb.t) : MonitorDb.t :=
  MonitorDb.make (<[device_id := row]> (MonitorDb.device_info db))
    (MonitorDb.heartbeat_logs db) (MonitorDb.heartbeat_seq db)
    (MonitorDb.device_notes db).

(** [UPDATE device_info SET hostname = ?, ..., last_seen = ?, last_ip = ?
    WHERE id = ?]: every column of [row] but [created_at]. *)
Definition update_device_info_row (device_id : string) (row : DeviceInfo.t)
    (db : MonitorDb.t) : MonitorDb.t :=
  MonitorDb.make
    (alter (λ old,
       DeviceInfo.make (DeviceInfo.hostname row) (DeviceInfo.username row)
         (DeviceInfo.os row) (DeviceInfo.cpu row) (DeviceInfo.memory row)
         (DeviceInfo.version row) (DeviceInfo.uuid row)
         (DeviceInfo.created_at old)
         (DeviceInfo.last_seen row) (DeviceInfo.last_ip row))
       device_id (MonitorDb.device_info db))
    (MonitorDb.heartbeat_logs db) (MonitorDb.heartbeat_seq db)
    (MonitorDb.device_notes db).

(** [SELECT created_at FROM device_info WHERE id = ?] *)
Definition select_created_at (device_id : string) (db : MonitorDb.t) : option Z :=
  DeviceInfo.created_at <$> MonitorDb.device_info db !! device_id.

Definition update_device_info (device_info : gmap string pyval)
    (ip_address : string) : Py unit :=
  try_except
    (let device_id :=
       if py_bool (dict_get device_info "id" PyNone)
       then Some (py_str (dict_get device_info "id" (PyStr "")))
       else None in
     match device_id with
     | None => mret ()
     | Some device_id =>
         if negb (str_bool device_id) then mret () else
         now ← datetime_now;
         let hostname := slice_to 255 (py_str (dict_get device_info "hostname" (PyStr ""))) in
         let username := slice_to 255 (py_str (dict_get device_info "username" (PyStr ""))) in
         let os_info := slice_to 500 (py_str (dict_get device_info "os" (PyStr ""))) in
         let cpu_info := slice_to 500 (py_str (dict_get device_info "cpu" (PyStr ""))) in
         let memory_info := slice_to 100 (py_str (dict_get device_info "memory" (PyStr ""))) in
         let version := slice_to 50 (py_str (dict_get device_info "version" (PyStr ""))) in
         let uuid := slice_to 255 (py_str (dict_get device_info "uuid" (PyStr ""))) in
         let ip_address := slice_to 45 ip_address in
         result ← query (select_created_at device_id);
         match result with
         | Some _ =>
             execute (update_device_info_row device_id
               (DeviceInfo.make hostname username os_info cpu_info memory_info
                  version uuid now now ip_address))
         | None =>
             execute (insert_device_info device_id
               (DeviceInfo.make hostname username os_info cpu_info memory_info
                  version uuid now now ip_address))
         end
     end)
    (λ _, mret ()).

(** *** log_heartbeat *)

(** What SQLite can store in an INTEGER column; binding a larger Python
    [int] raises [OverflowError]. *)
Definition sqlite_int64 (z : Z) : bool := (- 2 ^ 63 <=? z) && (z <? 2 ^ 63).

(** The rowid an AUTOINCREMENT table gives its next row: one more than
    the largest it has ever held. *)
Definition max_rowid (logs : gmap Z HeartbeatLog.t) : Z :=
  foldr Z.max 0 (map_to_list logs).*1.

Definition next_rowid (db : MonitorDb.t) : Z :=
  1 + Z.max (MonitorDb.heartbeat_seq db) (max_rowid (MonitorDb.heartbeat_logs db)).

(** [INSERT INTO heartbeat_logs (device_id, ip_address, timestamp, version)
    VALUES (?, ?, ?, ?)] *)
Definition insert_heartbeat_log (row : HeartbeatLog.t) (db : MonitorDb.t) : MonitorDb.t :=
  MonitorDb.make (MonitorDb.device_info db)
    (<[next_rowid db := row]> (MonitorDb.heartbeat_logs db))
    (next_rowid db)
    (MonitorDb.device_notes db).

(** [ORDER BY timestamp DESC]; SQLite leaves the order of rows with equal
    timestamps open, here they stay in the order of the table scan. *)
Definition newer_or_equal (a b : Z * HeartbeatLog.t) : Prop :=
  HeartbeatLog.timestamp b.2 ≤ HeartbeatLog.timestamp a.2.

#[export] Instance newer_or_equal_dec : RelDecision newer_or_equal.
Proof. intros a b. unfold newer_or_equal. apply _. Defined.

Definition order_by_timestamp_desc (rows : list (Z * HeartbeatLog.t)) :
    list (Z * HeartbeatLog.t) :=
  merge_sort newer_or_equal rows.

(** [SELECT id FROM heartbeat_logs ORDER BY timestamp DESC LIMIT limit] *)
Definition select_recent_ids (limit : nat) (logs : gmap Z HeartbeatLog.t) : list Z :=
  (take limit (order_by_timestamp_desc (map_to_list logs))).*1.

(** [DELETE FROM heartbeat_logs WHERE id NOT IN (SELECT id FROM
    heartbeat_logs ORDER BY timestamp DESC LIMIT 1000)] *)
Definition delete_old_heartbeat_logs (db : MonitorDb.t) : MonitorDb.t :=
  MonitorDb.make (MonitorDb.device_info db)
    (filter (λ kv, kv.1 ∈ select_recent_ids 1000 (MonitorDb.heartbeat_logs db))
       (MonitorDb.heartbeat_logs db))
    (MonitorDb.heartbeat_seq db)
    (MonitorDb.device_notes db).

(** [int(version)] *)
Definition py_int (v : pyval) : Py Z :=
  match v with
  | PyInt z => mret z
  | PyBool b => mret (if b then 1 else 0)
  | PyStr s => from_option mret (raise ValueError) (int_of_str s)
  | PyNone | PyOpaque _ _ => raise TypeError
  end.

Definition log_heartbeat (device_id ip_address : string) (version : pyval) : Py unit :=
  try_except
    (let device_id := slice_to 255 device_id in
     let ip_address := slice_to 45 ip_address in
     version ← (if py_bool version && isdigit (py_str version)
                then z ← py_int version; mret (Some z)
                else mret None);
     now ← datetime_now;
     (if from_option sqlite_int64 true version then mret () else raise OverflowError);;
     execute (insert_heartbeat_log (HeartbeatLog.make device_id ip_address now version));;
     execute delete_old_heartbeat_logs)
    (λ _, mret ()).

(** *** get_device_info, get_device_note, update_device_note *)

(** The row as a dict, [None] for the empty dict the source returns
    when there is no row. *)
Definition get_device_info (device_id : pyval) : Py (option DeviceInfo.t) :=
  try_except
    (query (λ db, MonitorDb.device_info db !! py_str device_id))
    (λ _, mret None).

Definition get_device_note (device_id : pyval) : Py string :=
  try_except
    (result ← query (λ db, MonitorDb.device_notes db !! py_str device_id);
     mret (from_option DeviceNote.note "" result))
    (λ _, mret "").

(** [INSERT OR REPLACE INTO device_notes (device_id, note, updated_at)
    VALUES (?, ?, ?)] *)
Definition replace_device_note (device_id : string) (row : DeviceNote.t)
    (db : MonitorDb.t) : MonitorDb.t :=
  MonitorDb.make (MonitorDb.device_info db) (MonitorDb.heartbeat_logs db)
    (MonitorDb.heartbeat_seq db)
    (<[device_id := row]> (MonitorDb.device_notes db)).

Definition update_device_note (device_id note : pyval) : Py unit :=
  try_except
    (let device_id := slice_to 255 (py_str device_id) in
     let note := slice_to 500 (py_str note) in
     now ← datetime_now;
     execute (replace_device_note device_id (DeviceNote.make note now)))
    (λ _, mret ()).

End DatabaseManager.

Module db_manager := DatabaseManager.

(** ** RustDeskMonitor *)

Module RustDeskMonitor.

(** Truth value of a column that is TEXT or NULL. *)
Definition column_bool (v : option string) : bool := from_option str_bool false v.

(** [ORDER BY created_at ASC]: NULL sorts first, texts compare
    character by character. *)
Definition created_at_le (a b : PeerRow.t) : Prop :=
  match PeerRow.created_at a, PeerRow.created_at b with
  | None, _ => True
  | Some _, None => False
  | Some x, Some y => String.le x y
  end.

#[export] Instance created_at_le_dec : RelDecision created_at_le.
Proof.
  intros a b. unfold created_at_le.
  destruct (PeerRow.created_at a), (PeerRow.created_at b); apply _.
Defined.

Definition order_by_created_at (rows : list PeerRow.t) : list PeerRow.t :=
  merge_sort created_at_le rows.

(** The body of the loop over the fetched rows. *)
Definition peer_of_row (row : PeerRow.t) : Py Peer.t :=
  let device_id :=
    if column_bool (PeerRow.id row) then default "" (PeerRow.id row) else UNKNOWN in
  let info_data :=
    if column_bool (PeerRow.info row)
    then match PeerRow.info_json row with
         | Some v => v
         | None => JsonObject {[ "raw" := PyStr (default "" (PeerRow.info row)) ]}
         end
    else JsonObject ∅ in
  let created_time :=
    if column_bool (PeerRow.created_at row)
    then default "" (PeerRow.created_at row)
    else UNKNOWN in
  match info_data with
  | JsonObject d =>
      mret (Peer.make device_id created_time
              (if py_bool (dict_get d "ip" PyNone)
               then py_str (dict_get d "ip" (PyStr UNKNOWN))
               else UNKNOWN))
  | JsonOther => raise AttributeError
  end.

(** [for x in l: ys.append(f(x))] *)
Fixpoint for_each {A B} (f : A → Py B) (l : list A) : Py (list B) :=
  match l with
  | [] => mret []
  | x :: l' => y ← f x; ys ← for_each f l'; mret (y :: ys)
  end.

Definition get_all_peer_ids : Py (list Peer.t) :=
  try_except
    (db ← gets peer_db;
     match db with
     | None => mret []
     | Some rows => for_each peer_of_row (order_by_created_at rows)
     end)
    (λ _, mret []).

End RustDeskMonitor.

Module rustdesk_monitor := RustDeskMonitor.

(** ** Requests *)

(** What a handler reads of a request: its headers under their
    lower-case names, the peer address when there is one, the number of
    bytes of the body as received, and what [request.json()] makes of
    the body ([None] when it raises). *)
Record Request := mkRequest {
  headers : gmap string string;
  client_host : option string;
  body_length : Z;
  json : option json_value
}.

Inductive Response :=
| Ok (message : string) (timestamp : Z)
| JSONResponse (status_code : Z) (message : string) (timestamp : Z).

Definition get_client_ip (request : Request) : string :=
  match headers request !! "x-forwarded-for" with
  | Some v => slice_to 45 (strip (before_comma v))
  | None =>
      match headers request !! "x-real-ip" with
      | Some v => slice_to 45 (strip v)
      | None =>
          match client_host request with
          | Some host => slice_to 45 host
          | None => UNKNOWN
          end
      end
  end.

(** [if content_length and int(content_length) > limit: raise
    HTTPException(status_code=413, ...)] *)
Definition check_content_length (request : Request) (limit : Z) : Py unit :=
  match headers request !! "content-length" with
  | Some content_length =>
      if str_bool content_length
      then n ← DatabaseManager.py_int (PyStr content_length);
           if limit <? n then raise (HTTPException 413 "请求体过大") else mret ()
      else mret ()
  | None => mret ()
  end.

(** [await request.json()] *)
Definition request_json (request : Request) : Py json_value :=
  from_option mret (raise JSONDecodeError) (json request).

(** [except HTTPException: raise] followed by [except Exception], which
    answers with status 500. *)
Definition internal_error (e : exception) : Py Response :=
  match e with
  | HTTPException _ _ => raise e
  | _ => now ← datetime_now; mret (JSONResponse 500 "内部服务器错误" now)
  end.

(** POST /api/heartbeat *)
Definition heartbeat (request : Request) : Py Response :=
  try_except
    (let client_ip := get_client_ip request in
     check_content_length request 10240;;
     body ← request_json request;
     match body with
     | JsonOther => raise (HTTPException 400 "无效的请求格式")
     | JsonObject body =>
         let device_id := dict_get body "id" PyNone in
         let version := dict_get body "ver" (PyInt 0) in
         (if py_bool device_id
          then
            let device_id := slice_to 255 (py_str device_id) in
            db_manager.log_heartbeat device_id client_ip version;;
            now ← datetime_now;
            online_devices_setitem device_id (Online.make now client_ip body)
          else mret ());;
         now ← datetime_now;
         mret (Ok "心跳包接收成功" now)
     end)
    internal_error.

(** POST /api/sysinfo *)
Definition sysinfo (request : Request) : Py Response :=
  try_except
    (let client_ip := get_client_ip request in
     check_content_length request 51200;;
     body ← request_json request;
     match body with
     | JsonOther => raise (HTTPException 400 "无效的请求格式")
     | JsonObject body =>
         db_manager.update_device_info body client_ip;;
         now ← datetime_now;
         mret (Ok "系统信息接收成功" now)
     end)
    internal_error.

(** ** The listing *)

Record Devices := mkDevices {
  total : Z;
  online : Z;
  offline : Z;
  devices : list Device.t
}.

(** The online check of the loop of [get_devices]. *)
Definition check_online (device_id : string) : Py (bool * heartbeat_time) :=
  presence ← gets online_devices;
  match presence !! device_id with
  | Some entry =>
      let last_heartbeat := Online.last_heartbeat entry in
      now ← datetime_now;
      mret (now - last_heartbeat <? timedelta OFFLINE_TIMEOUT_SECONDS,
            strftime last_heartbeat)
  | None => mret (false, Never)
  end.

(** The body of the loop of [get_devices]. *)
Definition merge_device (peer : Peer.t) : Py Device.t :=
  let device_id := Peer.id peer in
  device_detail ← db_manager.get_device_info (PyStr device_id);
  device_note ← db_manager.get_device_note (PyStr device_id);
  status ← check_online device_id;
  let get (field : DeviceInfo.t → string) (dflt : string) :=
    from_option field dflt device_detail in
  mret (Device.make device_id device_note (Peer.created_at peer) (Peer.ip peer)
          (get DeviceInfo.hostname "") (get DeviceInfo.username "")
          (get DeviceInfo.os "") (get DeviceInfo.cpu "")
          (get DeviceInfo.memory "") (get DeviceInfo.version "")
          (get DeviceInfo.last_ip (Peer.ip peer))
          status.1 status.2).

Definition len {A} (l : list A) : Z := Z.of_nat (length l).

(** GET /api/devices *)
Definition get_devices : Py Devices :=
  try_except
    (all_peers ← rustdesk_monitor.get_all_peer_ids;
     devices ← RustDeskMonitor.for_each merge_device all_peers;
     let online_count := len (filter (λ d, Device.is_online d = true) devices) in
     mret (mkDevices (len devices) online_count (len devices - online_count) devices))
    (λ _, raise (HTTPException 500 "获取设备信息失败")).

(** POST /api/device/note *)
Definition update_device_note (request : Request) : Py Response :=
  try_except
    (body ← request_json request;
     match body with
     | JsonOther => raise AttributeError
     | JsonObject body =>
         let device_id := dict_get body "device_id" PyNone in
         let note := dict_get body "note" (PyStr "") in
         if negb (py_bool device_id)
         then raise (HTTPException 400 "设备ID不能为空")
         else
           db_manager.update_device_note device_id note;;
           now ← datetime_now;
           mret (Ok "备注更新成功" now)
     end)
    (λ e, match e with
          | HTTPException _ _ => raise e
          | _ => raise (HTTPException 500 "更新备注失败")
          end).

(** ** Vocabulary of the properties *)

(** The identities the registry adapter reports in a state. *)
Definition known_peers (w : World) : list Peer.t :=
  match result_of rustdesk_monitor.get_all_peer_ids w with
  | Returns peers => peers
  | Raises _ => []
  end.

(** The stores a request may change. *)
Definition same_stores (w w' : World) : Prop :=
  peer_db w' = peer_db w ∧ monitor_db w' = monitor_db w ∧
  online_devices w' = online_devices w.

(** What the listing shows for a registry identity, given the stores it
    joins: the telemetry row and the note when there are any, and the
    online check made at some reading [n] of the clock, none earlier
    than [since]. *)
Definition merged_view (w : World) (since : nat) (peer : Peer.t) (d : Device.t) : Prop :=
  let detail := MonitorDb.device_info (monitor_db w) !! Peer.id peer in
  let get (field : DeviceInfo.t → string) (dflt : string) := from_option field dflt detail in
  Device.id d = Peer.id peer ∧
  Device.note d =
    from_option DeviceNote.note "" (MonitorDb.device_notes (monitor_db w) !! Peer.id peer) ∧
  Device.created_at d = Peer.created_at peer ∧
  Device.original_ip d = Peer.ip peer ∧
  Device.hostname d = get DeviceInfo.hostname "" ∧
  Device.username d = get DeviceInfo.username "" ∧
  Device.os d = get DeviceInfo.os "" ∧
  Device.cpu d = get DeviceInfo.cpu "" ∧
  Device.memory d = get DeviceInfo.memory "" ∧
  Device.version d = get DeviceInfo.version "" ∧
  Device.last_ip d = get DeviceInfo.last_ip (Peer.ip peer) ∧
  match online_devices w !! Peer.id peer with
  | Some entry =>
      (∃ n, (since ≤ n)%nat ∧
         Device.is_online d =
           (clock w n - Online.last_heartbeat entry <? timedelta OFFLINE_TIMEOUT_SECONDS)) ∧
      Device.last_heartbeat_time d = strftime (Online.last_heartbeat entry)
  | None => Device.is_online d = false ∧ Device.last_heartbeat_time d = Never
  end.


(** The row a system-info report makes at time [now]. *)
Definition reported_row (device_info : gmap string pyval) (ip_address : string)
    (now : Z) : DeviceInfo.t :=
  DeviceInfo.make
    (slice_to 255 (py_str (dict_get device_info "hostname" (PyStr ""))))
    (slice_to 255 (py_str (dict_get device_info "username" (PyStr ""))))
    (slice_to 500 (py_str (dict_get device_info "os" (PyStr ""))))
    (slice_to 500 (py_str (dict_get device_info "cpu" (PyStr ""))))
    (slice_to 100 (py_str (dict_get device_info "memory" (PyStr ""))))
    (slice_to 50 (py_str (dict_get device_info "version" (PyStr ""))))
    (slice_to 255 (py_str (dict_get device_info "uuid" (PyStr ""))))
    now now (slice_to 45 ip_address).


(** The row the store holds after a report: the reported one, with the
    [created_at] of the row it replaces when there was one. *)
Definition stored_row (old : option DeviceInfo.t) (new : DeviceInfo.t) : DeviceInfo.t :=
  DeviceInfo.make (DeviceInfo.hostname new) (DeviceInfo.username new)
    (DeviceInfo.os new) (DeviceInfo.cpu new) (DeviceInfo.memory new)
    (DeviceInfo.version new) (DeviceInfo.uuid new)
    (from_option DeviceInfo.created_at (DeviceInfo.created_at new) old)
    (DeviceInfo.last_seen new) (DeviceInfo.last_ip new).

Definition upserted (X : string) (new : DeviceInfo.t) (db : MonitorDb.t) : MonitorDb.t :=
  MonitorDb.make
    (<[X := stored_row (MonitorDb.device_info db !! X) new]> (MonitorDb.device_info db))
    (MonitorDb.heartbeat_logs db) (MonitorDb.heartbeat_seq db)
    (MonitorDb.device_notes db).

(** A report that names the device [X]: its [id] is true and reads [X]. *)
Definition reports (X : string) (device_info : gmap string pyval) : Prop :=
  py_bool (dict_get device_info "id" PyNone) = true ∧
  py_str (dict_get device_info "id" (PyStr "")) = X ∧
  X ≠ "".

(** A sequence of system-info reports, each a payload and the address
    it came from. *)
Fixpoint report_all (calls : list (gmap string pyval * string)) : Py unit :=
  match calls with
  | [] => mret ()
  | call :: rest => DatabaseManager.update_device_info call.1 call.2;; report_all rest
  end.

(** The heartbeat log of a state. *)
Definition logs (w : World) : gmap Z HeartbeatLog.t :=
  MonitorDb.heartbeat_logs (monitor_db w).

(** A sequence of [log_heartbeat] calls, each with its device id,
    address and version. *)
Fixpoint log_all (calls : list (string * string * pyval)) : Py unit :=
  match calls with
  | [] => mret ()
  | call :: rest =>
      DatabaseManager.log_heartbeat call.1.1 call.1.2 call.2;; log_all rest
  end.

(** A clock that never goes back. *)
Definition monotone (c : nat → Z) : Prop := ∀ i j, (i ≤ j)%nat → c i ≤ c j.

(** Every telemetry row was first written no later than it was last
    written, and last written no later than the next reading. *)
Definition telemetry_in_order (w : World) : Prop :=
  ∀ X row, MonitorDb.device_info (monitor_db w) !! X = Some row →
    DeviceInfo.created_at row ≤ DeviceInfo.last_seen row ∧
    DeviceInfo.last_seen row ≤ clock w (ticks w).

(** *** States and requests used as examples *)

Definition empty_db : MonitorDb.t := MonitorDb.make ∅ ∅ 0 ∅.

(** A clock that advances one second per reading. *)
Definition second_clock (n : nat) : Z := Z.of_nat n * 1000000.

Definition world_with (peers : option (list PeerRow.t)) : World :=
  mkWorld second_clock 0 peers empty_db ∅.

(** A JSON string literal. *)
Definition quoted (s : string) : string :=
  String (ascii_of_N 34) s +:+ String (ascii_of_N 34) "".

Definition registry_AB : list PeerRow.t :=
  [ PeerRow.make (Some "A") (Some "2024-01-01 00:00:00")
      (Some ("{" +:+ quoted "ip" +:+ ": " +:+ quoted "10.0.0.1" +:+ "}"))
      (Some (JsonObject {[ "ip" := PyStr "10.0.0.1" ]}));
    PeerRow.make (Some "B") (Some "2024-01-02 00:00:00") (Some "[]") (Some JsonOther) ].

Definition request_with (content_length : option string) (size : Z)
    (body : option json_value) : Request :=
  mkRequest (from_option (λ v, {[ "content-length" := v ]}) ∅ content_length)
    (Some "10.0.0.9") size body.

(** A heartbeat sent with chunked transfer encoding: no Content-Length
    header, a body of 15000 bytes that is a JSON object naming device A
    (and padded by a field the program ignores). *)
Definition chunked_heartbeat : Request :=
  request_with None 15000
    (Some (JsonObject {[ "id" := PyStr "A"; "pad" := PyOpaque true "..." ]})).

(** A heartbeat whose device id is the empty string. *)
Definition empty_id_heartbeat : Request :=
  request_with (Some "10") 10 (Some (JsonObject {[ "id" := PyStr "" ]})).

(** A device id of 256 characters. *)
Fixpoint repeat_char (c : ascii) (n : nat) : string :=
  match n with
  | O => ""
  | S n' => String c (repeat_char c n')
  end.

Definition long_id : string := repeat_char "a" 256.

(** A non-empty string of decimal digits. *)
Definition decimal_string (s : string) : bool :=
  str_bool s && all_chars isdecimal_char s.

(** The versions [log_heartbeat] takes in, and what goes into the
    [version] column for each: nothing for None, a boolean, an integer
    that is not positive, a string that is not made of digits, or any
    other value whose text is not made of digits; the number itself for
    a positive integer or a string of decimal digits, below 2^63. *)
Inductive stored_as : pyval → option Z → Prop :=
| stored_none : stored_as PyNone None
| stored_bool (b : bool) : stored_as (PyBool b) None
| stored_not_positive (z : Z) : z ≤ 0 → stored_as (PyInt z) None
| stored_positive (z : Z) : 0 < z → z < 2 ^ 63 → stored_as (PyInt z) (Some z)
| stored_digits (s : string) (z : Z) :
    decimal_string s = true → int_of_str s = Some z → z < 2 ^ 63 →
    stored_as (PyStr s) (Some z)
| stored_not_digits (s : string) : isdigit s = false → stored_as (PyStr s) None
| stored_other (t : bool) (s : string) : isdigit s = false → stored_as (PyOpaque t s) None.

(** The superscript two, a digit for [str.isdigit] that [int()] does
    not read. *)
Definition superscript_two : string := String (ascii_of_N 178) "".

(** A registry with the one identity A, a system-info report naming a
    device X the registry does not know, and the request carrying it. *)
Definition registry_A : list PeerRow.t := take 1 registry_AB.

Definition report_X : gmap string pyval * string :=
  ({[ "id" := PyStr "X"; "hostname" := PyStr "pc-17" ]}, "10.0.0.9").

Definition sysinfo_X : Request :=
  request_with (Some "40") 40 (Some (JsonObject report_X.1)).

(** Two heartbeats as [log_heartbeat] receives them. *)
Definition two_heartbeats : list (string * string * pyval) :=
  [ ("A", "10.0.0.9", PyInt 3); ("B", "10.0.0.8", PyNone) ].

(** A registry whose table holds B before A, A being the older; a
    heartbeat of A. *)
Definition registry_BA : list PeerRow.t :=
  [ PeerRow.make (Some "B") (Some "2024-01-02 00:00:00") (Some "") None;
    PeerRow.make (Some "A") (Some "2024-01-01 00:00:00")
      (Some ("{" +:+ quoted "ip" +:+ ": " +:+ quoted "10.0.0.1" +:+ "}"))
      (Some (JsonObject {[ "ip" := PyStr "10.0.0.1" ]})) ].

Definition heartbeat_A : Request :=
  request_with (Some "20") 20 (Some (JsonObject {[ "id" := PyStr "A"; "ver" := PyInt 1002003 ]})).

(** ** Further code of the file *)

(** [s[n:]] *)
Fixpoint slice_from (n : nat) (s : string) : string :=
  match n, s with
  | S n', String _ s' => slice_from n' s'
  | _, _ => s
  end.

(** [str.lower] on one character: the capital letters, ASCII and
    accented, move 32 places up. *)
Definition lower_char (c : ascii) : ascii :=
  if ((65 <=? code c) && (code c <=? 90)
      || (192 <=? code c) && (code c <=? 222) && negb (code c =? 215))%N
  then ascii_of_N (code c + 32)
  else c.

(** [s.lower()] *)
Fixpoint lower (s : string) : string :=
  match s with
  | "" => ""
  | String c s' => String (lower_char c) (lower s')
  end.

(** [s.replace(old, new)] for an [old] of one character. *)
Fixpoint replace_char (old : ascii) (new : string) (s : string) : string :=
  match s with
  | "" => ""
  | String c s' =>
      if Ascii.eqb c old
      then new +:+ replace_char old new s'
      else String c (replace_char old new s')
  end.

Definition double_quote : ascii := ascii_of_N 34.

(** [html.escape(s)], with its default [quote=True]. *)
Definition html_escape (s : string) : string :=
  let s := replace_char "&" "&amp;" s in
  let s := replace_char "<" "&lt;" s in
  let s := replace_char ">" "&gt;" s in
  let s := replace_char double_quote "&quot;" s in
  let s := replace_char "'" "&#x27;" s in
  s.

Definition safe_html_escape (text : pyval) : string :=
  if negb (py_bool text) then "" else html_escape (py_str text).

Definition simplify_os_info (os_string : pyval) : string :=
  if negb (py_bool os_string) then "" else
  let os_string := py_str os_string in
  if String.prefix "windows / " (lower os_string)
  then slice_from 10 os_string
  else os_string.

(** The dict of headers [log_unknown_requests] writes to the log, built
    from the header items of the request in their order. *)
Definition logged_headers (items : list (string * string)) : gmap string string :=
  foldl (λ (headers : gmap string string) (item : string * string),
           if bool_decide (lower item.1 ∈ ["authorization"; "cookie"; "x-api-key"])
           then headers
           else <[item.1 := slice_to 200 item.2]> headers)
        ∅ items.

(** The figures the home page shows in its header; the rest of the page
    is fixed text. *)
Record Page := mkPage {
  total_devices : Z;
  online_devices_count : Z;
  offline_devices : Z
}.

(** The loop of [index] over the peers, from the count so far. *)
Fixpoint count_online (peers : list Peer.t) (online_devices_count : Z) : Py Z :=
  match peers with
  | [] => mret online_devices_count
  | peer :: rest =>
      let device_id := Peer.id peer in
      presence ← gets online_devices;
      match presence !! device_id with
      | Some entry =>
          let last_heartbeat := Online.last_heartbeat entry in
          now ← datetime_now;
          if now - last_heartbeat <? timedelta OFFLINE_TIMEOUT_SECONDS
          then count_online rest (online_devices_count + 1)
          else count_online rest online_devices_count
      | None => count_online rest online_devices_count
      end
  end.

(** GET / *)
Definition index : Py Page :=
  try_except
    (all_peers ← rustdesk_monitor.get_all_peer_ids;
     let total_devices := len all_peers in
     online_devices_count ← count_online all_peers 0;
     mret (mkPage total_devices online_devices_count
             (total_devices - online_devices_count)))
    (λ _, raise (HTTPException 500 "页面生成失败")).

(** The answer of the health probe.  The monitor database file is there
    by the convention of this embedding. *)
Inductive HealthReport :=
| Healthy (rustdesk_db_exists monitor_db_exists : bool)
    (online_devices : Z) (offline_timeout : Z) (timestamp : Z)
| HealthError (timestamp : Z).

(** GET /health *)
Definition health_check : Py HealthReport :=
  try_except
    (db ← gets peer_db;
     presence ← gets online_devices;
     now ← datetime_now;
     mret (Healthy (bool_decide (is_Some db)) true (Z.of_nat (size presence))
             OFFLINE_TIMEOUT_SECONDS now))
    (λ _, now ← datetime_now; mret (HealthError now)).

(** *** Vocabulary of the further properties *)

(** The characters that open or close markup or an attribute value. *)
Definition markup_char (c : ascii) : bool :=
  Ascii.eqb c "<" || Ascii.eqb c ">" || Ascii.eqb c double_quote || Ascii.eqb c "'".

(** What [html.escape] puts for one character. *)
Definition escape_char (c : ascii) : string :=
  if Ascii.eqb c "&" then "&amp;"
  else if Ascii.eqb c "<" then "&lt;"
  else if Ascii.eqb c ">" then "&gt;"
  else if Ascii.eqb c double_quote then "&quot;"
  else if Ascii.eqb c "'" then "&#x27;"
  else String c "".

Definition comma_free (s : string) : bool :=
  all_chars (λ c, negb (Ascii.eqb c ",")) s.

(** The part of the monitor database that holds telemetry and notes. *)
Definition same_telemetry_and_notes (w w' : World) : Prop :=
  MonitorDb.device_info (monitor_db w') = MonitorDb.device_info (monitor_db w) ∧
  MonitorDb.device_notes (monitor_db w') = MonitorDb.device_notes (monitor_db w).

(** The number of devices the health probe reports. *)
Definition health_online (w : World) : Z :=
  match result_of health_check w with
  | Returns (Healthy _ _ n _ _) => n
  | _ => 0
  end.

(** The lengths the columns of a telemetry row are cut to. *)
Definition telemetry_row_bounded (row : DeviceInfo.t) : Prop :=
  (String.length (DeviceInfo.hostname row) ≤ 255)%nat ∧
  (String.length (DeviceInfo.username row) ≤ 255)%nat ∧
  (String.length (DeviceInfo.os row) ≤ 500)%nat ∧
  (String.length (DeviceInfo.cpu row) ≤ 500)%nat ∧
  (String.length (DeviceInfo.memory row) ≤ 100)%nat ∧
  (String.length (DeviceInfo.version row) ≤ 50)%nat ∧
  (String.length (DeviceInfo.uuid row) ≤ 255)%nat ∧
  (String.length (DeviceInfo.last_ip row) ≤ 45)%nat.

Definition telemetry_bounded (w : World) : Prop :=
  ∀ X row, MonitorDb.device_info (monitor_db w) !! X = Some row → telemetry_row_bounded row.

(** The bounds of a heartbeat log row: its texts, and a version that is
    absent or a number SQLite holds and that is not negative. *)
Definition logs_bounded (w : World) : Prop :=
  ∀ k row, logs w !! k = Some row →
    (String.length (HeartbeatLog.device_id row) ≤ 255)%nat ∧
    (String.length (HeartbeatLog.ip_address row) ≤ 45)%nat ∧
    from_option (λ z, 0 ≤ z < 2 ^ 63) True (HeartbeatLog.version row).

(** The bounds of a note: its key and its text. *)
Definition notes_bounded (w : World) : Prop :=
  ∀ device_id row, MonitorDb.device_notes (monitor_db w) !! device_id = Some row →
    (String.length device_id ≤ 255)%nat ∧ (String.length (DeviceNote.note row) ≤ 500)%nat.

(** The IP the registry records for a row: the [ip] of its [info] when
    that is a JSON object holding a true one, and the text for an
    unknown value otherwise. *)
Definition registry_ip (row : PeerRow.t) : string :=
  match PeerRow.info_json row with
  | Some (JsonObject d) =>
      if RustDeskMonitor.column_bool (PeerRow.info row) && py_bool (dict_get d "ip" PyNone)
      then py_str (dict_get d "ip" PyNone)
      else UNKNOWN
  | _ => UNKNOWN
  end.

(** A clock that is set back: the first reading is 02:00:00; the wall
    clock is then set back by an hour, as at the end of daylight saving
    time ([datetime.now()] is local time), and the readings after it
    start at 01:00:01. *)
Definition set_back_clock (n : nat) : Z :=
  match n with
  | O => 7200 * 1000000
  | S _ => (3600 + Z.of_nat n) * 1000000
  end.

Definition world_at_set_back_clock : World := mkWorld set_back_clock 0 None empty_db ∅.

(** The monitor database within the bounds of its columns. *)
Definition stores_bounded (w : World) : Prop :=
  telemetry_bounded w ∧ logs_bounded w ∧ notes_bounded w.

(** * Properties *)

Arguments slice_to : simpl never.
Arguments dict_get : simpl never.
Arguments py_str : simpl nomatch.
Arguments timedelta : simpl never.

Ltac unfold_py :=
  cbv beta iota zeta delta
    [state_after result_of try_except query execute gets datetime_now raise
     online_devices_setitem mbind mret Py_bind Py_ret] in *.

(** ** Presence *)

Lemma timeout_is_90_seconds : timedelta OFFLINE_TIMEOUT_SECONDS = 90 * 1000000.
Proof. reflexivity. Qed.

(** C1. The online check always returns.  For a device with an entry in
    [online_devices] whose last heartbeat is [T], read at time [now], it
    answers online exactly when [now - T] is strictly below the timeout of
    90 seconds, hence offline when [now - T] is the timeout itself; for a
    device without an entry it answers offline. *)
Theorem check_online_iff_recent (w : World) (device_id : string) :
  ∃ is_online shown,
    result_of (check_online device_id) w = Returns (is_online, shown) ∧
    match online_devices w !! device_id with
    | Some entry =>
        let now := clock w (ticks w) in
        let T := Online.last_heartbeat entry in
        (is_online = true ↔ now - T < timedelta 90) ∧
        (now - T = timedelta 90 → is_online = false) ∧
        shown = strftime T
    | None => is_online = false ∧ shown = Never
    end.
Proof.
  unfold check_online. unfold_py.
  destruct (online_devices w !! device_id) as [entry|] eqn:Hentry; simpl.
  - eexists _, _. split; [reflexivity|].
    change (timedelta OFFLINE_TIMEOUT_SECONDS) with (timedelta 90).
    split; [apply Z.ltb_lt|]. split; [|reflexivity].
    intros Hage. apply Z.ltb_ge. lia.
  - eexists _, _. split; [reflexivity|]. split; reflexivity.
Qed.

(** ** The loop combinator *)

Lemma for_each_returns {A B} (f : A → Py B) (I : World → Prop) (P : A → B → Prop) :
  (∀ x w, I w → ∃ y w', f x w = (Returns y, w') ∧ I w' ∧ P x y) →
  ∀ l w, I w →
    ∃ ys w', RustDeskMonitor.for_each f l w = (Returns ys, w') ∧ I w' ∧ Forall2 P l ys.
Proof.
  intros Hf l. induction l as [|x l IH]; intros w Hw; simpl.
  - exists [], w. repeat split; [assumption | constructor].
  - destruct (Hf x w Hw) as (y & w1 & Hy & Hw1 & HP).
    destruct (IH w1 Hw1) as (ys & w2 & Hys & Hw2 & HPs).
    exists (y :: ys), w2. unfold_py. rewrite Hy, Hys.
    repeat split; [assumption | by constructor].
Qed.

(** ** The registry adapter *)

(** Reading a row consults nothing but the row. *)
Lemma peer_of_row_state row w : (RustDeskMonitor.peer_of_row row w).2 = w.
Proof.
  unfold RustDeskMonitor.peer_of_row.
  repeat case_match; reflexivity.
Qed.

Lemma for_each_peer_of_row_state rows w :
  (RustDeskMonitor.for_each RustDeskMonitor.peer_of_row rows w).2 = w.
Proof.
  revert w. induction rows as [|row rows IH]; intros w; simpl; [reflexivity|].
  unfold_py. pose proof (peer_of_row_state row w) as Hrow.
  destruct (RustDeskMonitor.peer_of_row row w) as [[y|e] w1]; simpl in *; subst w1;
    [|reflexivity].
  specialize (IH w).
  destruct (RustDeskMonitor.for_each RustDeskMonitor.peer_of_row rows w) as [[ys|e] w2];
    simpl in *; subst w2; reflexivity.
Qed.

(** The adapter always returns, and leaves the state as it found it. *)
Lemma get_all_peer_ids_run w :
  rustdesk_monitor.get_all_peer_ids w = (Returns (known_peers w), w).
Proof.
  unfold known_peers, RustDeskMonitor.get_all_peer_ids. unfold_py.
  destruct (peer_db w) as [rows|]; simpl; [|reflexivity].
  pose proof (for_each_peer_of_row_state (RustDeskMonitor.order_by_created_at rows) w) as Hw.
  destruct (RustDeskMonitor.for_each _ _ w) as [[ys|e] w1]; simpl in *; subst w1;
    reflexivity.
Qed.

(** The adapter only looks at the registry file. *)
Lemma known_peers_ext w1 w2 : peer_db w1 = peer_db w2 → known_peers w1 = known_peers w2.
Proof.
  intros Hdb. unfold known_peers, RustDeskMonitor.get_all_peer_ids. unfold_py.
  rewrite <- Hdb. destruct (peer_db w1) as [rows|]; simpl; [|reflexivity].
  pose proof (for_each_peer_of_row_state (RustDeskMonitor.order_by_created_at rows)) as Hst.
  assert (∀ l wa wb,
    (RustDeskMonitor.for_each RustDeskMonitor.peer_of_row l wa).1 =
    (RustDeskMonitor.for_each RustDeskMonitor.peer_of_row l wb).1) as Hind.
  { clear. induction l as [|row l IH]; intros wa wb; simpl; [reflexivity|].
    unfold_py.
    pose proof (peer_of_row_state row wa) as Ha.
    pose proof (peer_of_row_state row wb) as Hb.
    assert ((RustDeskMonitor.peer_of_row row wa).1 = (RustDeskMonitor.peer_of_row row wb).1) as Hr.
    { unfold RustDeskMonitor.peer_of_row. repeat case_match; reflexivity. }
    destruct (RustDeskMonitor.peer_of_row row wa) as [[ya|ea] wa1],
             (RustDeskMonitor.peer_of_row row wb) as [[yb|eb] wb1];
      simpl in *; subst; try discriminate; [|congruence].
    injection Hr as ->. specialize (IH wa wb).
    destruct (RustDeskMonitor.for_each _ l wa) as [[ysa|ea] wa1],
             (RustDeskMonitor.for_each _ l wb) as [[ysb|eb] wb1];
      simpl in *; congruence. }
  specialize (Hind (RustDeskMonitor.order_by_created_at rows) w1 w2).
  destruct (RustDeskMonitor.for_each _ _ w1) as [[ys1|e1] w1'],
           (RustDeskMonitor.for_each _ _ w2) as [[ys2|e2] w2'];
    simpl in *; congruence.
Qed.

(** ** The listing *)

Lemma merge_device_run (w0 w : World) (peer : Peer.t) :
  clock w = clock w0 → (ticks w0 ≤ ticks w)%nat → same_stores w0 w →
  ∃ d w', merge_device peer w = (Returns d, w') ∧
    (clock w' = clock w0 ∧ (ticks w0 ≤ ticks w')%nat ∧ same_stores w0 w') ∧
    merged_view w0 (ticks w0) peer d.
Proof.
  intros Hclock Hticks (Hpeer & Hdb & Honline).
  unfold merge_device, db_manager.get_device_info, db_manager.get_device_note,
    check_online. unfold_py. simpl.
  rewrite Honline, Hdb.
  destruct (online_devices w0 !! Peer.id peer) as [entry|] eqn:Hentry; simpl.
  - eexists _, _. split; [reflexivity|]. split.
    + repeat split; simpl; try assumption. lia.
    + unfold merged_view. rewrite Hentry. simpl.
      repeat split; try reflexivity.
      exists (ticks w). rewrite Hclock. split; [assumption | reflexivity].
  - eexists _, _. split; [reflexivity|]. split.
    + repeat split; simpl; assumption.
    + unfold merged_view. rewrite Hentry. simpl. repeat split; reflexivity.
Qed.

(** The listing always returns: one merged view per identity the adapter
    reports, in the adapter's order, with the three counts; it changes
    no store. *)
Lemma get_devices_run (w : World) :
  ∃ ds w',
    get_devices w =
      (Returns (mkDevices (len ds)
                  (len (filter (λ d, Device.is_online d = true) ds))
                  (len ds - len (filter (λ d, Device.is_online d = true) ds)) ds), w') ∧
    same_stores w w' ∧
    Forall2 (merged_view w (ticks w)) (known_peers w) ds.
Proof.
  destruct (for_each_returns merge_device
              (λ w1, clock w1 = clock w ∧ (ticks w ≤ ticks w1)%nat ∧ same_stores w w1)
              (merged_view w (ticks w))) with (l := known_peers w) (w := w)
    as (ds & w' & Hrun & (_ & _ & Hsame) & Hviews).
  - intros peer w1 (Hc & Ht & Hs). apply merge_device_run; assumption.
  - repeat split; reflexivity.
  - exists ds, w'. split; [|split; assumption].
    unfold get_devices. unfold_py. rewrite get_all_peer_ids_run, Hrun. reflexivity.
Qed.

(** C10, at a registry that knows two identities, A with the recorded
    IP 10.0.0.1 and B with an [info] that is JSON but not an object, and
    a telemetry store with no row for A: the adapter raises on the row of
    B and reports no identity, so the listing has no view of A in which
    to show the registry's IP.  On the same registry without the row of
    B, the view of A shows it as [last_ip]. *)
Theorem listing_of_registry_AB_shows_no_registry_ip :
  let w := world_with (Some registry_AB) in
  PeerRow.id <$> registry_AB = [Some "A"; Some "B"] ∧
  registry_ip <$> registry_AB = ["10.0.0.1"; UNKNOWN] ∧
  MonitorDb.device_info (monitor_db w) !! "A" = None ∧
  (∃ ds, result_of get_devices w = Returns ds ∧
     ¬ ∃ d, d ∈ devices ds ∧ Device.id d = "A") ∧
  (∃ ds, result_of get_devices (world_with (Some registry_A)) = Returns ds ∧
     Device.id <$> devices ds = ["A"] ∧ Device.last_ip <$> devices ds = ["10.0.0.1"]).
Proof.
  intros w. split; [reflexivity|]. split; [reflexivity|]. split; [reflexivity|]. split.
  - exists (mkDevices 0 0 0 []). split; [reflexivity|].
    intros (d & Hd & _). simpl in Hd. by apply elem_of_nil in Hd.
  - eexists. split; [vm_compute; reflexivity|]. split; reflexivity.
Qed.

(** The listing after one heartbeat of A, two seconds old when A is
    checked: A, the older identity, comes first and is online; B has
    never been heard of. *)
Example listing_after_heartbeat_of_A :
  let w := state_after (heartbeat heartbeat_A) (world_with (Some registry_BA)) in
  ∃ ds, result_of get_devices w = Returns ds ∧
    (total ds, online ds, offline ds) = (2, 1, 1) ∧
    (λ d, (Device.id d, Device.is_online d, Device.last_heartbeat_time d, Device.last_ip d))
      <$> devices ds =
      [ ("A", true, Strftime 1, "10.0.0.1"); ("B", false, Never, UNKNOWN) ].
Proof. eexists. split; [reflexivity|]. split; reflexivity. Qed.

(** ** The listing against the registry table *)

#[export] Instance created_at_le_total : Total RustDeskMonitor.created_at_le.
Proof.
  intros a b. unfold RustDeskMonitor.created_at_le.
  destruct (PeerRow.created_at a) as [x|], (PeerRow.created_at b) as [y|]; auto.
  apply String.le_total.
Qed.




(** C2, at a registry that knows two identities, the second with an
    [info] that is JSON but not an object: the adapter raises on that row
    and answers with no identity at all, so the listing is empty and
    counts no device. *)
Theorem listing_of_registry_AB_is_empty :
  length registry_AB = 2%nat ∧
  result_of get_devices (world_with (Some registry_AB)) = Returns (mkDevices 0 0 0 []).
Proof. split; reflexivity. Qed.

(** ** Telemetry *)

Lemma update_device_info_run (w : World) (device_info : gmap string pyval)
    (ip_address X : string) :
  reports X device_info →
  DatabaseManager.update_device_info device_info ip_address w =
    (Returns (),
     set_monitor_db
       (upserted X (reported_row device_info ip_address (clock w (ticks w))) (monitor_db w))
       (set_ticks (S (ticks w)) w)).
Proof.
  intros (Hbool & Hstr & HX).
  assert (str_bool X = true) as Htrue.
  { unfold str_bool. destruct (String.eqb X "") eqn:HeqX; [|reflexivity].
    by apply String.eqb_eq in HeqX. }
  unfold DatabaseManager.update_device_info. rewrite Hbool, Hstr, Htrue. simpl.
  unfold DatabaseManager.select_created_at. unfold_py. simpl.
  destruct (MonitorDb.device_info (monitor_db w) !! X) as [old|] eqn:Hold; simpl.
  - f_equal. unfold set_monitor_db. simpl. f_equal.
    unfold DatabaseManager.update_device_info_row, upserted, reported_row. simpl.
    f_equal. rewrite Hold.
    apply map_eq. intros k. rewrite lookup_alter, lookup_insert.
    destruct (decide (X = k)) as [<-|Hne]; [by rewrite Hold | reflexivity].
  - f_equal. unfold set_monitor_db. simpl. f_equal.
    unfold DatabaseManager.insert_device_info, upserted, reported_row. simpl.
    by rewrite Hold.
Qed.

Lemma update_device_info_state (w : World) (device_info : gmap string pyval)
    (ip_address X : string) :
  reports X device_info →
  state_after (DatabaseManager.update_device_info device_info ip_address) w =
    set_monitor_db
      (upserted X (reported_row device_info ip_address (clock w (ticks w))) (monitor_db w))
      (set_ticks (S (ticks w)) w).
Proof.
  intros HX. unfold state_after. by rewrite (update_device_info_run _ _ _ X HX).
Qed.

(** A report without a usable id changes nothing. *)
Lemma update_device_info_without_id (w : World) (device_info : gmap string pyval)
    (ip_address : string) :
  py_bool (dict_get device_info "id" PyNone) = false →
  DatabaseManager.update_device_info device_info ip_address w = (Returns (), w).
Proof.
  intros Hid. unfold DatabaseManager.update_device_info. rewrite Hid. reflexivity.
Qed.

Lemma check_content_length_state (request : Request) (limit : Z) (w : World) :
  (check_content_length request limit w).2 = w.
Proof.
  unfold check_content_length, DatabaseManager.py_int.
  destruct (headers request !! "content-length") as [v|]; [|reflexivity].
  destruct (str_bool v); [|reflexivity].
  unfold_py. destruct (int_of_str v) as [n|]; simpl; [|reflexivity].
  destruct (limit <? n); reflexivity.
Qed.

Lemma merged_view_ids (w : World) (n : nat) (peers : list Peer.t) (ds : list Device.t) :
  Forall2 (merged_view w n) peers ds → Device.id <$> ds = Peer.id <$> peers.
Proof.
  induction 1 as [|peer d peers ds [Hid _] _ IH]; [reflexivity|].
  rewrite !fmap_cons. by rewrite Hid, IH.
Qed.

(** C6. A system-info report that passes the size check and names a
    device [X] the registry adapter does not report is stored: afterwards
    [get_device_info] returns for [X] the reported row (keeping the
    [created_at] of an earlier row for [X], if there was one), while no
    view of the listing has the id [X]. *)
Theorem unregistered_report_is_stored_but_not_listed
    (w : World) (request : Request) (body : gmap string pyval) (X : string) :
  result_of (check_content_length request 51200) w = Returns () →
  json request = Some (JsonObject body) →
  reports X body →
  X ∉ Peer.id <$> known_peers w →
  let w' := state_after (sysinfo request) w in
  result_of (db_manager.get_device_info (PyStr X)) w' =
    Returns (Some (stored_row (MonitorDb.device_info (monitor_db w) !! X)
                     (reported_row body (get_client_ip request) (clock w (ticks w))))) ∧
  ∃ ds, result_of get_devices w' = Returns ds ∧ X ∉ Device.id <$> devices ds.
Proof.
  intros Hsize Hjson Hreports Hunknown w'.
  assert (w' = set_ticks (S (S (ticks w)))
                 (set_monitor_db
                    (upserted X (reported_row body (get_client_ip request)
                                   (clock w (ticks w))) (monitor_db w)) w)) as Hw'.
  { subst w'. unfold sysinfo, request_json. unfold_py.
    pose proof (check_content_length_state request 51200 w) as Hst.
    destruct (check_content_length request 51200 w) as [r w1]. simpl in *. subst w1 r.
    rewrite Hjson. simpl.
    rewrite (update_device_info_run _ _ _ X Hreports). reflexivity. }
  split.
  - rewrite Hw'. unfold DatabaseManager.get_device_info. unfold_py. simpl.
    by rewrite lookup_insert_eq.
  - destruct (get_devices_run w') as (ds & w'' & Hrun & _ & Hviews).
    eexists. unfold result_of. rewrite Hrun. split; [reflexivity|]. simpl.
    rewrite (merged_view_ids _ _ _ _ Hviews).
    rewrite (known_peers_ext w' w); [assumption|]. by rewrite Hw'.
Qed.

(** A report either names a device or changes nothing. *)
Lemma update_device_info_cases (w : World) (device_info : gmap string pyval)
    (ip_address : string) :
  DatabaseManager.update_device_info device_info ip_address w = (Returns (), w) ∨
  ∃ X, reports X device_info.
Proof.
  destruct (py_bool (dict_get device_info "id" PyNone)) eqn:Hbool.
  - destruct (String.eqb (py_str (dict_get device_info "id" (PyStr ""))) "") eqn:Hempty.
    + left. unfold DatabaseManager.update_device_info. rewrite Hbool. simpl.
      unfold str_bool. rewrite Hempty. reflexivity.
    + right. eexists. repeat split; [assumption|].
      intros Heq. apply String.eqb_neq in Hempty. contradiction.
  - left. by apply update_device_info_without_id.
Qed.

(** One report: the clock is untouched, and either nothing changes or
    one row is upserted at the reading taken. *)
Lemma update_device_info_step (w : World) (device_info : gmap string pyval)
    (ip_address : string) :
  let w' := state_after (DatabaseManager.update_device_info device_info ip_address) w in
  w' = w ∨
  ∃ X, reports X device_info ∧
    w' = set_monitor_db
           (upserted X (reported_row device_info ip_address (clock w (ticks w)))
              (monitor_db w))
           (set_ticks (S (ticks w)) w).
Proof.
  intros w'. subst w'. unfold state_after.
  destruct (update_device_info_cases w device_info ip_address) as [Hsame|[X HX]].
  - left. by rewrite Hsame.
  - right. exists X. split; [assumption|]. by rewrite (update_device_info_run _ _ _ X HX).
Qed.

Lemma report_all_cons (call : gmap string pyval * string)
    (rest : list (gmap string pyval * string)) (w : World) :
  state_after (report_all (call :: rest)) w =
  state_after (report_all rest)
    (state_after (DatabaseManager.update_device_info call.1 call.2) w).
Proof.
  simpl. unfold_py.
  destruct (update_device_info_cases w call.1 call.2) as [Hsame|[X HX]].
  - rewrite Hsame. reflexivity.
  - rewrite (update_device_info_run _ _ _ X HX). reflexivity.
Qed.

(** Once a row exists, no later report changes its [created_at]. *)
Lemma update_device_info_keeps_created_at (w : World) (device_info : gmap string pyval)
    (ip_address X : string) (row : DeviceInfo.t) :
  MonitorDb.device_info (monitor_db w) !! X = Some row →
  ∃ row',
    MonitorDb.device_info
      (monitor_db (state_after (DatabaseManager.update_device_info device_info ip_address) w))
      !! X = Some row' ∧
    DeviceInfo.created_at row' = DeviceInfo.created_at row.
Proof.
  intros Hrow.
  destruct (update_device_info_step w device_info ip_address) as [->|(Y & _ & ->)].
  - by exists row.
  - simpl. destruct (decide (Y = X)) as [->|Hne].
    + rewrite lookup_insert_eq, Hrow. eexists. split; reflexivity.
    + rewrite lookup_insert_ne by assumption. by exists row.
Qed.

Lemma report_all_keeps_created_at (calls : list (gmap string pyval * string))
    (w : World) (X : string) (row : DeviceInfo.t) :
  MonitorDb.device_info (monitor_db w) !! X = Some row →
  ∃ row',
    MonitorDb.device_info (monitor_db (state_after (report_all calls) w)) !! X = Some row' ∧
    DeviceInfo.created_at row' = DeviceInfo.created_at row.
Proof.
  revert w row. induction calls as [|call rest IH]; intros w row Hrow.
  - by exists row.
  - rewrite report_all_cons.
    destruct (update_device_info_keeps_created_at w call.1 call.2 X row Hrow)
      as (row1 & Hrow1 & Hcreated1).
    destruct (IH _ row1 Hrow1) as (row' & Hrow' & Hcreated').
    exists row'. split; [assumption | congruence].
Qed.

(** After reports that all name [X], the row of [X] was last seen at the
    reading of the last of them. *)
Lemma report_all_last_seen (rest : list (gmap string pyval * string))
    (call : gmap string pyval * string) (w : World) (X : string) :
  reports X call.1 → Forall (λ c, reports X c.1) rest →
  let w' := state_after (report_all (call :: rest)) w in
  clock w' = clock w ∧ ticks w' = (ticks w + 1 + length rest)%nat ∧
  ∃ row, MonitorDb.device_info (monitor_db w') !! X = Some row ∧
    DeviceInfo.last_seen row = clock w (ticks w + length rest)%nat.
Proof.
  revert call w. induction rest as [|next rest IH]; intros call w Hcall Hrest w'; subst w';
    rewrite report_all_cons, (update_device_info_state _ _ _ X Hcall).
  - unfold state_after. simpl. rewrite lookup_insert_eq.
    repeat split; [lia|]. eexists. split; [reflexivity|]. simpl. f_equal. lia.
  - inversion Hrest as [|? ? Hnext Hrest']; subst.
    set (w1 := set_monitor_db _ _).
    destruct (IH next w1 Hnext Hrest') as (Hclock & Hticks & row & Hrow & Hseen).
    split; [exact Hclock|]. split; [rewrite Hticks; simpl; lia|].
    exists row. split; [exact Hrow|]. rewrite Hseen. simpl. f_equal. lia.
Qed.

(** Under a clock that never goes back, reports keep every row in
    order. *)
Lemma update_device_info_in_order (w : World) (device_info : gmap string pyval)
    (ip_address : string) :
  monotone (clock w) → telemetry_in_order w →
  let w' := state_after (DatabaseManager.update_device_info device_info ip_address) w in
  clock w' = clock w ∧ telemetry_in_order w'.
Proof.
  intros Hmono Hinv w'. subst w'.
  destruct (update_device_info_step w device_info ip_address) as [->|(Y & _ & ->)];
    [by split|].
  split; [reflexivity|]. intros X row. simpl.
  pose proof (Hmono (ticks w) (S (ticks w))) as Hnext.
  destruct (decide (Y = X)) as [->|Hne].
  - rewrite lookup_insert_eq. intros [= <-]. simpl.
    destruct (MonitorDb.device_info (monitor_db w) !! X) as [old|] eqn:Hold; simpl.
    + destruct (Hinv X old Hold). lia.
    + lia.
  - rewrite lookup_insert_ne by assumption. intros Hrow.
    destruct (Hinv X row Hrow). lia.
Qed.

Lemma report_all_in_order (calls : list (gmap string pyval * string)) (w : World) :
  monotone (clock w) → telemetry_in_order w →
  telemetry_in_order (state_after (report_all calls) w).
Proof.
  revert w. induction calls as [|call rest IH]; intros w Hmono Hinv; [assumption|].
  rewrite report_all_cons.
  destruct (update_device_info_in_order w call.1 call.2 Hmono Hinv) as [Hclock Hinv'].
  apply IH; [by rewrite Hclock | assumption].
Qed.

(** C4, amended.  Let a first report and then further ones all name the
    device [X].  The first leaves a row for [X] whose [created_at] is the time of
    that report when [X] had no row (and the earlier value when it had).
    After the further reports the row has the same [created_at], and its
    [last_seen] is the reading of the clock made by the last report;
    nor does any other later sequence of reports change [created_at].
    Under a clock that never goes back, every stored row then has
    [created_at <= last_seen] if the rows stored before had it and were
    not last seen later than the clock reads. *)
Theorem created_at_is_fixed_by_first_report
    (w : World) (X : string) (first : gmap string pyval * string)
    (rest : list (gmap string pyval * string)) :
  reports X first.1 → Forall (λ c, reports X c.1) rest →
  let w1 := state_after (DatabaseManager.update_device_info first.1 first.2) w in
  let wN := state_after (report_all rest) w1 in
  ∃ row1 rowN,
    MonitorDb.device_info (monitor_db w1) !! X = Some row1 ∧
    MonitorDb.device_info (monitor_db wN) !! X = Some rowN ∧
    DeviceInfo.created_at row1 =
      from_option DeviceInfo.created_at (clock w (ticks w))
        (MonitorDb.device_info (monitor_db w) !! X) ∧
    DeviceInfo.created_at rowN = DeviceInfo.created_at row1 ∧
    DeviceInfo.last_seen rowN = clock w (ticks w + length rest)%nat ∧
    (∀ later, ∃ row',
       MonitorDb.device_info (monitor_db (state_after (report_all later) wN)) !! X
         = Some row' ∧
       DeviceInfo.created_at row' = DeviceInfo.created_at row1) ∧
    (monotone (clock w) → telemetry_in_order w →
     telemetry_in_order wN ∧ DeviceInfo.created_at rowN ≤ DeviceInfo.last_seen rowN).
Proof.
  intros Hfirst Hrest w1 wN.
  assert (wN = state_after (report_all (first :: rest)) w) as HwN
    by (subst wN w1; by rewrite report_all_cons).
  destruct (report_all_last_seen rest first w X Hfirst Hrest)
    as (Hclock & Hticks & rowN & HrowN & Hseen).
  rewrite <- HwN in Hclock, Hticks, HrowN.
  assert (∃ row1, MonitorDb.device_info (monitor_db w1) !! X = Some row1 ∧
            DeviceInfo.created_at row1 =
              from_option DeviceInfo.created_at (clock w (ticks w))
                (MonitorDb.device_info (monitor_db w) !! X)) as (row1 & Hrow1 & Hcreated1).
  { subst w1. rewrite (update_device_info_state _ _ _ X Hfirst). simpl.
    rewrite lookup_insert_eq. eexists. split; [reflexivity|].
    by destruct (MonitorDb.device_info (monitor_db w) !! X). }
  destruct (report_all_keeps_created_at rest w1 X row1 Hrow1) as (rowN' & HrowN' & HcreatedN).
  fold wN in HrowN'. assert (rowN' = rowN) as -> by congruence.
  exists row1, rowN.
  split; [exact Hrow1|]. split; [exact HrowN|]. split; [exact Hcreated1|].
  split; [exact HcreatedN|]. split; [exact Hseen|]. split.
  - intros later.
    destruct (report_all_keeps_created_at later wN X rowN HrowN) as (row' & Hrow' & Hcreated').
    exists row'. split; [assumption | congruence].
  - intros Hmono Hinv.
    assert (telemetry_in_order wN) as HinvN
      by (rewrite HwN; by apply report_all_in_order).
    split; [exact HinvN|]. by destruct (HinvN X rowN HrowN).
Qed.

(** ** The heartbeat log *)

#[export] Instance newer_or_equal_total : Total DatabaseManager.newer_or_equal.
Proof. intros a b. unfold DatabaseManager.newer_or_equal. lia. Qed.

#[export] Instance newer_or_equal_trans : Transitive DatabaseManager.newer_or_equal.
Proof. intros a b c. unfold DatabaseManager.newer_or_equal. lia. Qed.

Lemma max_rowid_bound (m : gmap Z HeartbeatLog.t) (k : Z) (row : HeartbeatLog.t) :
  m !! k = Some row → k ≤ DatabaseManager.max_rowid m.
Proof.
  intros Hk. apply elem_of_map_to_list in Hk.
  apply (list_elem_of_fmap_2 fst) in Hk. simpl in Hk.
  unfold DatabaseManager.max_rowid.
  induction ((map_to_list m).*1) as [|x l IH]; [by apply elem_of_nil in Hk|].
  apply elem_of_cons in Hk as [->|Hk]; simpl; [lia|].
  specialize (IH Hk). lia.
Qed.

(** The rowid of an inserted row is not in use. *)
Lemma next_rowid_fresh (db : MonitorDb.t) :
  MonitorDb.heartbeat_logs db !! DatabaseManager.next_rowid db = None.
Proof.
  destruct (MonitorDb.heartbeat_logs db !! DatabaseManager.next_rowid db) as [row|] eqn:Hrow;
    [|reflexivity].
  apply max_rowid_bound in Hrow. unfold DatabaseManager.next_rowid in Hrow. lia.
Qed.

Lemma select_recent_ids_length (limit : nat) (m : gmap Z HeartbeatLog.t) :
  (length (DatabaseManager.select_recent_ids limit m) ≤ limit)%nat.
Proof.
  unfold DatabaseManager.select_recent_ids. rewrite length_fmap, length_take. lia.
Qed.

(** The DELETE leaves at most 1000 rows, whatever it started from. *)
Lemma delete_old_heartbeat_logs_size (db : MonitorDb.t) :
  (size (MonitorDb.heartbeat_logs (DatabaseManager.delete_old_heartbeat_logs db)) ≤ 1000)%nat.
Proof.
  unfold DatabaseManager.delete_old_heartbeat_logs. simpl.
  set (m := MonitorDb.heartbeat_logs db).
  set (kept := filter _ m).
  rewrite <- length_map_to_list, <- (length_fmap fst).
  etrans; [|apply (select_recent_ids_length 1000 m)].
  apply submseteq_length, NoDup_submseteq; [apply NoDup_fst_map_to_list|].
  intros k Hk. apply list_elem_of_fmap in Hk as ([k' row] & -> & Hrow).
  apply elem_of_map_to_list in Hrow. unfold kept in Hrow.
  apply map_lookup_filter_Some in Hrow as [_ Hin]. exact Hin.
Qed.

(** The DELETE removes oldest first: a row it removes is no newer than
    any row it keeps. *)
Lemma delete_old_heartbeat_logs_oldest (db : MonitorDb.t) (ke kr : Z)
    (e r : HeartbeatLog.t) :
  let db' := DatabaseManager.delete_old_heartbeat_logs db in
  MonitorDb.heartbeat_logs db !! ke = Some e →
  MonitorDb.heartbeat_logs db' !! ke = None →
  MonitorDb.heartbeat_logs db' !! kr = Some r →
  HeartbeatLog.timestamp e ≤ HeartbeatLog.timestamp r.
Proof.
  unfold DatabaseManager.delete_old_heartbeat_logs. simpl.
  set (m := MonitorDb.heartbeat_logs db).
  unfold DatabaseManager.select_recent_ids.
  set (ordered := DatabaseManager.order_by_timestamp_desc (map_to_list m)).
  intros He Hgone Hkept.
  assert (ordered ≡ₚ map_to_list m) as Hperm by apply merge_sort_Permutation.
  assert (StronglySorted DatabaseManager.newer_or_equal ordered) as Hsorted
    by (apply StronglySorted_merge_sort; apply _).
  assert (∀ k row, (k, row) ∈ ordered ↔ m !! k = Some row) as Hmem
    by (intros k row; by rewrite Hperm, elem_of_map_to_list).
  apply map_lookup_filter_Some in Hkept as [Hr Hin]. simpl in Hin.
  assert ((kr, r) ∈ take 1000 ordered) as Hr_kept.
  { apply list_elem_of_fmap in Hin as ([k' r'] & Hk & Hin'). simpl in Hk. subst k'.
    assert (m !! kr = Some r') as Hr'
      by (apply Hmem; eapply subseteq_take; exact Hin').
    by assert (r' = r) as <- by congruence. }
  assert ((ke, e) ∈ drop 1000 ordered) as He_dropped.
  { assert ((ke, e) ∈ take 1000 ordered ++ drop 1000 ordered) as Hsplit
      by (rewrite take_drop; by apply Hmem).
    apply elem_of_app in Hsplit as [Htaken|Hdropped]; [|assumption].
    exfalso.
    assert (filter (λ kv : Z * HeartbeatLog.t, kv.1 ∈ (take 1000 ordered).*1) m !! ke = Some e)
      as Hstill.
    { apply map_lookup_filter_Some. split; [assumption|].
      simpl. by apply (list_elem_of_fmap_2 fst) in Htaken. }
    congruence. }
  rewrite <- (take_drop 1000 ordered) in Hsorted.
  exact (StronglySorted_app_1_elem_of _ _ _ _ _ Hsorted Hr_kept He_dropped).
Qed.

(** One call: it takes no effect on the log, or it inserts a row stamped
    with the reading taken and then trims. *)
Lemma log_heartbeat_step (w : World) (device_id ip_address : string) (version : pyval) :
  let w' := state_after (DatabaseManager.log_heartbeat device_id ip_address version) w in
  monitor_db w' = monitor_db w ∨
  ∃ stored,
    monitor_db w' =
      DatabaseManager.delete_old_heartbeat_logs
        (DatabaseManager.insert_heartbeat_log
           (HeartbeatLog.make (slice_to 255 device_id) (slice_to 45 ip_address)
              (clock w (ticks w)) stored)
           (monitor_db w)).
Proof.
  unfold DatabaseManager.log_heartbeat.
  destruct (py_bool version && isdigit (py_str version)).
  - unfold DatabaseManager.py_int.
    destruct version as [|b|z|s|t s]; unfold_py; simpl; try (by left).
    + destruct (DatabaseManager.sqlite_int64 (if b then 1 else 0)); simpl;
        [right; by eexists | by left].
    + destruct (DatabaseManager.sqlite_int64 z); simpl; [right; by eexists | by left].
    + destruct (int_of_str s) as [z|]; simpl; [|by left].
      destruct (DatabaseManager.sqlite_int64 z); simpl; [right; by eexists | by left].
  - unfold_py. simpl. right. by eexists.
Qed.

Lemma log_heartbeat_size (w : World) (device_id ip_address : string) (version : pyval) :
  (size (logs w) ≤ 1000)%nat →
  (size (logs (state_after (DatabaseManager.log_heartbeat device_id ip_address version) w))
     ≤ 1000)%nat.
Proof.
  intros Hsize. unfold logs.
  destruct (log_heartbeat_step w device_id ip_address version) as [->|[stored ->]];
    [assumption | apply delete_old_heartbeat_logs_size].
Qed.

(** [log_heartbeat] swallows what it raises. *)
Lemma log_heartbeat_returns (w : World) (device_id ip_address : string) (version : pyval) :
  ∃ w1, DatabaseManager.log_heartbeat device_id ip_address version w = (Returns (), w1).
Proof.
  unfold DatabaseManager.log_heartbeat, try_except.
  match goal with
  | |- context [match ?body w with _ => _ end] => destruct (body w) as [[[]|e] w1]
  end; by eexists.
Qed.

Lemma log_all_cons (call : string * string * pyval) (rest : list (string * string * pyval))
    (w : World) :
  state_after (log_all (call :: rest)) w =
  state_after (log_all rest)
    (state_after (DatabaseManager.log_heartbeat call.1.1 call.1.2 call.2) w).
Proof.
  simpl. unfold state_after at 1 2 3. cbv beta delta [mbind Py_bind].
  by destruct (log_heartbeat_returns w call.1.1 call.1.2 call.2) as [w1 ->].
Qed.

(** C3. From a log of at most 1000 rows, any sequence of [log_heartbeat]
    calls leaves at most 1000 rows.  A call either leaves the log as it
    was or inserts one row, stamped with the reading taken, under an
    unused rowid and trims; the rows it keeps are rows of the log with
    the new row, and every row of these that it removes has a timestamp
    no newer than that of every row it keeps. *)
Theorem heartbeat_log_bounded_oldest_first
    (w : World) (calls : list (string * string * pyval)) :
  (size (logs w) ≤ 1000)%nat →
  (size (logs (state_after (log_all calls) w)) ≤ 1000)%nat ∧
  ∀ device_id ip_address version,
    let w' := state_after (DatabaseManager.log_heartbeat device_id ip_address version) w in
    logs w' = logs w ∨
    ∃ row,
      let inserted := <[DatabaseManager.next_rowid (monitor_db w) := row]> (logs w) in
      HeartbeatLog.timestamp row = clock w (ticks w) ∧
      logs w !! DatabaseManager.next_rowid (monitor_db w) = None ∧
      (∀ k r, logs w' !! k = Some r → inserted !! k = Some r) ∧
      ∀ ke e kr r,
        inserted !! ke = Some e → logs w' !! ke = None → logs w' !! kr = Some r →
        HeartbeatLog.timestamp e ≤ HeartbeatLog.timestamp r.
Proof.
  intros Hsize. split.
  - revert w Hsize. induction calls as [|call rest IH]; intros w Hsize; [assumption|].
    rewrite log_all_cons. by apply IH, log_heartbeat_size.
  - intros device_id ip_address version w'. subst w'. unfold logs.
    destruct (log_heartbeat_step w device_id ip_address version) as [->|[stored ->]];
      [by left|right].
    exists (HeartbeatLog.make (slice_to 255 device_id) (slice_to 45 ip_address)
              (clock w (ticks w)) stored).
    split; [reflexivity|]. split; [apply next_rowid_fresh|]. split.
    + intros k r Hkept. simpl in Hkept.
      by apply map_lookup_filter_Some in Hkept as [Hk _].
    + intros ke e kr r He Hgone Hkept.
      exact (delete_old_heartbeat_logs_oldest
               (DatabaseManager.insert_heartbeat_log _ (monitor_db w)) ke kr e r
               He Hgone Hkept).
Qed.

(** C4, at a wall clock that is set back between two reports of the
    device X: the row keeps the [created_at] of the first report, 02:00:00,
    and takes the [last_seen] of the second, 01:00:01, which is earlier. *)
Lemma report_after_clock_set_back :
  let w := world_at_set_back_clock in
  let w1 := state_after (DatabaseManager.update_device_info report_X.1 report_X.2) w in
  let w2 := state_after (DatabaseManager.update_device_info report_X.1 report_X.2) w1 in
  ∃ row, MonitorDb.device_info (monitor_db w2) !! "X" = Some row ∧
    DeviceInfo.created_at row = 7200000000 ∧
    DeviceInfo.last_seen row = 3601000000 ∧
    ¬ (DeviceInfo.created_at row ≤ DeviceInfo.last_seen row).
Proof.
  eexists. split; [vm_compute; reflexivity|]. simpl.
  split; [reflexivity|]. split; [reflexivity|]. lia.
Qed.

(** ** The heartbeat handler *)

(** X20. A heartbeat whose Content-Length header declares more
    than 10240 bytes is refused with status 413.  The body is not read
    for that, whatever it holds, and the state is left exactly as it was:
    registry, monitor database, presence table and clock. *)
Theorem heartbeat_over_declared_limit (w : World) (request : Request) (v : string) (n : Z) :
  headers request !! "content-length" = Some v →
  int_of_str v = Some n → 10240 < n →
  heartbeat request w = (Raises (HTTPException 413 "请求体过大"), w).
Proof.
  intros Hheader Hint Hover.
  assert (str_bool v = true) as Htrue by (by destruct v).
  unfold heartbeat, check_content_length, DatabaseManager.py_int.
  rewrite Hheader, Htrue, Hint. unfold_py. simpl.
  assert ((10240 <? n) = true) as -> by (apply Z.ltb_lt; lia). reflexivity.
Qed.

(** C5, at a heartbeat of 15000 bytes sent without a Content-Length
    header: the size check, which the handler announces as a limit on
    the size of the body, has nothing to compare; the body is parsed, and
    the heartbeat is acknowledged and recorded in the presence table and
    in the heartbeat log. *)
Lemma chunked_heartbeat_is_recorded :
  let w := world_with None in
  let w' := state_after (heartbeat chunked_heartbeat) w in
  10240 < body_length chunked_heartbeat ∧
  result_of (heartbeat chunked_heartbeat) w = Returns (Ok "心跳包接收成功" 2000000) ∧
  online_devices w !! "A" = None ∧
  Online.last_heartbeat <$> online_devices w' !! "A" = Some 1000000 ∧
  size (logs w) = 0%nat ∧
  logs w' !! 1 = Some (HeartbeatLog.make "A" "10.0.0.9" 0 None).
Proof. repeat split; vm_compute; reflexivity. Qed.

(** C7, at a heartbeat whose device id is empty: it is acknowledged like
    any other, not refused. *)
Lemma empty_id_heartbeat_is_acknowledged :
  json empty_id_heartbeat = Some (JsonObject {[ "id" := PyStr "" ]}) ∧
  result_of (heartbeat empty_id_heartbeat) (world_with None)
    = Returns (Ok "心跳包接收成功" 0).
Proof. split; reflexivity. Qed.

(** The ways a heartbeat fails are those of reading the request: 413 for
    a declared length above the limit, 400 for a body that is not an
    object, 500 when the declared length or the body cannot be parsed.
    None of them changes a store. *)
Lemma heartbeat_failures (w : World) (request : Request) :
  let w' := state_after (heartbeat request) w in
  match result_of (heartbeat request) w with
  | Returns (Ok _ _) => True
  | Returns (JSONResponse status _ _) =>
      status = 500 ∧ same_stores w w' ∧
      (json request = None ∨
       ∃ v, headers request !! "content-length" = Some v ∧ int_of_str v = None)
  | Raises (HTTPException status _) =>
      same_stores w w' ∧
      ((status = 413 ∧ ∃ v n, headers request !! "content-length" = Some v ∧
                        int_of_str v = Some n ∧ 10240 < n) ∨
       (status = 400 ∧ json request = Some JsonOther))
  | Raises _ => False
  end.
Proof.
  assert (∀ body : gmap string pyval,
    let run :=
      try_except
        (let device_id := dict_get body "id" PyNone in
         let version := dict_get body "ver" (PyInt 0) in
         (if py_bool device_id
          then
            let device_id := slice_to 255 (py_str device_id) in
            db_manager.log_heartbeat device_id (get_client_ip request) version;;
            now ← datetime_now;
            online_devices_setitem device_id
              (Online.make now (get_client_ip request) body)
          else mret ());;
         now ← datetime_now;
         mret (Ok "心跳包接收成功" now))
        internal_error w in
    ∃ t, run.1 = Returns (Ok "心跳包接收成功" t)) as Haccepted.
  { intros body. unfold_py.
    destruct (py_bool (dict_get body "id" PyNone)); simpl; [|by eexists].
    match goal with
    | |- context [DatabaseManager.log_heartbeat ?d ?i ?v w] =>
        destruct (log_heartbeat_returns w d i v) as [w1 ->]
    end. by eexists. }
  assert (∀ w0 : World, same_stores w0 w0) as Hsame by (by repeat split).
  assert (∀ w0 : World, same_stores w0 (set_ticks (S (ticks w0)) w0)) as Hsame'
    by (by repeat split).
  pose proof (check_content_length_state request 10240 w) as Hstate.
  unfold heartbeat, request_json.
  unfold check_content_length, DatabaseManager.py_int in *.
  destruct (headers request !! "content-length") as [v|] eqn:Hheader.
  - destruct (str_bool v) eqn:Htrue.
    + destruct (int_of_str v) as [n|] eqn:Hint.
      * unfold_py. simpl. destruct (10240 <? n) eqn:Hover; simpl.
        { split; [apply Hsame|]. left. split; [reflexivity|].
          exists v, n. split; [reflexivity|]. split; [assumption|]. by apply Z.ltb_lt. }
        destruct (json request) as [[body|]|] eqn:Hjson; simpl.
        -- destruct (Haccepted body) as [t Ht]. unfold_py. simpl in Ht. by rewrite Ht.
        -- split; [apply Hsame|]. right. by split.
        -- split; [reflexivity|]. split; [apply Hsame'|]. by left.
      * unfold_py. simpl. split; [reflexivity|]. split; [apply Hsame'|].
        right. by exists v.
    + unfold_py. simpl. destruct (json request) as [[body|]|] eqn:Hjson; simpl.
      * destruct (Haccepted body) as [t Ht]. unfold_py. simpl in Ht. by rewrite Ht.
      * split; [apply Hsame|]. right. by split.
      * split; [reflexivity|]. split; [apply Hsame'|]. by left.
  - unfold_py. simpl. destruct (json request) as [[body|]|] eqn:Hjson; simpl.
    + destruct (Haccepted body) as [t Ht]. unfold_py. simpl in Ht. by rewrite Ht.
    + split; [apply Hsame|]. right. by split.
    + split; [reflexivity|]. split; [apply Hsame'|]. by left.
Qed.

(** A heartbeat that passes the size check and whose body is a JSON
    object with a false device id is acknowledged, at the cost of one
    reading of the clock. *)
Lemma heartbeat_without_id_run
    (w : World) (request : Request) (body : gmap string pyval) :
  result_of (check_content_length request 10240) w = Returns () →
  json request = Some (JsonObject body) →
  py_bool (dict_get body "id" PyNone) = false →
  heartbeat request w =
    (Returns (Ok "心跳包接收成功" (clock w (ticks w))), set_ticks (S (ticks w)) w).
Proof.
  intros Hsize Hjson Hid.
  unfold heartbeat, request_json. unfold_py.
  pose proof (check_content_length_state request 10240 w) as Hst.
  destruct (check_content_length request 10240 w) as [r w1]. simpl in *. subst w1 r.
  rewrite Hjson. simpl. rewrite Hid. reflexivity.
Qed.

(** C7, amended.  A heartbeat that passes the size check and whose body
    is a JSON object with an empty (or missing, or otherwise false)
    device id is not refused: it is acknowledged with the ok answer,
    stamped with the one reading it takes, and records nothing, registry,
    monitor database and presence table being as before.  The failures of
    the handler are those of reading the request: 413 for a declared
    length above the limit, 400 for a body that is not an object, 500
    when the declared length or the body cannot be parsed; none of them
    changes a store. *)
Theorem heartbeat_without_id_is_acknowledged (w : World) (request : Request) :
  let w' := state_after (heartbeat request) w in
  (∀ body,
     result_of (check_content_length request 10240) w = Returns () →
     json request = Some (JsonObject body) →
     py_bool (dict_get body "id" PyNone) = false →
     result_of (heartbeat request) w = Returns (Ok "心跳包接收成功" (clock w (ticks w))) ∧
     same_stores w w' ∧ ticks w' = S (ticks w)) ∧
  match result_of (heartbeat request) w with
  | Returns (Ok _ _) => True
  | Returns (JSONResponse status _ _) =>
      status = 500 ∧ same_stores w w' ∧
      (json request = None ∨
       ∃ v, headers request !! "content-length" = Some v ∧ int_of_str v = None)
  | Raises (HTTPException status _) =>
      same_stores w w' ∧
      ((status = 413 ∧ ∃ v n, headers request !! "content-length" = Some v ∧
                        int_of_str v = Some n ∧ 10240 < n) ∨
       (status = 400 ∧ json request = Some JsonOther))
  | Raises _ => False
  end.
Proof.
  intros w'. split; [|apply heartbeat_failures].
  intros body Hsize Hjson Hid. subst w'. unfold result_of, state_after.
  rewrite (heartbeat_without_id_run w request body Hsize Hjson Hid). simpl.
  split; [reflexivity|]. split; [|reflexivity]. by repeat split.
Qed.

(** ** Annotations *)

Lemma slice_to_short (n : nat) (s : string) :
  (String.length s ≤ n)%nat → slice_to n s = s.
Proof.
  revert n. induction s as [|c s IH]; intros [|n] Hlen; simpl in *;
    try reflexivity; try lia.
  unfold slice_to; fold slice_to. f_equal. apply IH. lia.
Qed.

Lemma slice_to_length (n : nat) (s : string) : (String.length (slice_to n s) ≤ n)%nat.
Proof.
  revert s. induction n as [|n IH]; intros [|c s]; unfold slice_to; fold slice_to;
    simpl; try lia.
  specialize (IH s). lia.
Qed.

(** Setting a note stores it, cut to 500 characters, under the first 255
    characters of the device id. *)
Lemma update_device_note_run (w : World) (device_id note : pyval) :
  DatabaseManager.update_device_note device_id note w =
    (Returns (),
     set_monitor_db
       (DatabaseManager.replace_device_note (slice_to 255 (py_str device_id))
          (DeviceNote.make (slice_to 500 (py_str note)) (clock w (ticks w)))
          (monitor_db w))
       (set_ticks (S (ticks w)) w)).
Proof. reflexivity. Qed.

Lemma get_device_note_run (w : World) (device_id : pyval) :
  DatabaseManager.get_device_note device_id w =
    (Returns (from_option DeviceNote.note ""
                (MonitorDb.device_notes (monitor_db w) !! py_str device_id)), w).
Proof. reflexivity. Qed.

(** C9, at a device id of 256 characters: the note is stored under the
    first 255 of them, and reading the note of the device itself finds
    nothing. *)
Lemma note_of_long_id_is_lost :
  let w := world_with None in
  let w' := state_after (db_manager.update_device_note (PyStr long_id) (PyStr "desk 4")) w in
  String.length long_id = 256%nat ∧
  result_of (db_manager.get_device_note (PyStr long_id)) w' = Returns "" ∧
  result_of (db_manager.get_device_note (PyStr (slice_to 255 long_id))) w' = Returns "desk 4".
Proof. repeat split; vm_compute; reflexivity. Qed.

(** C9, amended.  For a device id of at most 255 characters and any text,
    reading the note after setting it gives the text cut to 500
    characters, whatever note was there before; after a second set the
    note is the second text cut to 500 characters, with nothing of the
    first. *)
Theorem note_round_trip (w : World) (device_id text text2 : string) :
  (String.length device_id ≤ 255)%nat →
  let w1 := state_after (db_manager.update_device_note (PyStr device_id) (PyStr text)) w in
  let w2 := state_after (db_manager.update_device_note (PyStr device_id) (PyStr text2)) w1 in
  result_of (db_manager.get_device_note (PyStr device_id)) w1 = Returns (slice_to 500 text) ∧
  result_of (db_manager.get_device_note (PyStr device_id)) w2 = Returns (slice_to 500 text2).
Proof.
  intros Hlen w1 w2. subst w1 w2. unfold state_after, result_of.
  rewrite !update_device_note_run, !get_device_note_run. simpl.
  rewrite (slice_to_short 255 device_id Hlen), !lookup_insert_eq. split; reflexivity.
Qed.

(** ** The version column *)

Lemma isdecimal_isdigit (c : ascii) : isdecimal_char c = true → isdigit_char c = true.
Proof. unfold isdigit_char. by intros ->. Qed.

Lemma decimal_string_isdigit (s : string) : decimal_string s = true → isdigit s = true.
Proof.
  unfold decimal_string, isdigit, str_bool.
  intros [Hne Hall]%andb_prop. rewrite Hne. simpl.
  clear Hne. induction s as [|c s IH]; simpl in *; [reflexivity|].
  apply andb_prop in Hall as [Hc Hs]. by rewrite (isdecimal_isdigit c Hc), IH.
Qed.

Lemma string_of_uint_digits (d : Decimal.uint) :
  all_chars isdigit_char (NilEmpty.string_of_uint d) = true.
Proof. induction d; simpl; [reflexivity | assumption..]. Qed.

Lemma all_chars_rev_app (p : ascii → bool) (s acc : string) :
  all_chars p (String.rev_app s acc) = all_chars p s && all_chars p acc.
Proof.
  revert acc. induction s as [|c s IH]; intros acc; simpl; [reflexivity|].
  rewrite IH. simpl. by destruct (p c), (all_chars p s).
Qed.

Lemma all_chars_lstrip_of (p space : ascii → bool) (s : string) :
  all_chars p s = true → all_chars p (lstrip_of space s) = true.
Proof.
  induction s as [|c s IH]; simpl; [reflexivity|].
  intros [Hc Hs]%andb_prop. destruct (space c); [by apply IH|].
  simpl. by rewrite Hc, Hs.
Qed.

Lemma all_chars_strip_of (p space : ascii → bool) (s : string) :
  all_chars p s = true → all_chars p (strip_of space s) = true.
Proof.
  intros Hs. unfold strip_of, String.rev.
  rewrite all_chars_rev_app, andb_true_r. apply all_chars_lstrip_of.
  rewrite all_chars_rev_app, andb_true_r. by apply all_chars_lstrip_of.
Qed.

Lemma int_digits_nonnegative (s : string) (acc : Z) (after_digit : bool) (z : Z) :
  0 ≤ acc → int_digits acc after_digit s = Some z → 0 ≤ z.
Proof.
  revert acc after_digit. induction s as [|c s IH]; intros acc after_digit Hacc; simpl.
  - destruct after_digit; [by intros [= <-] | discriminate].
  - destruct (isdecimal_char c) eqn:Hc.
    + apply IH. unfold isdecimal_char in Hc.
      apply andb_prop in Hc as [Hlow _]. apply N.leb_le in Hlow. lia.
    + destruct (Ascii.eqb c "_" && after_digit); [by apply IH | discriminate].
Qed.

(** A string of decimal digits never reads as a negative number. *)
Lemma int_of_str_decimal (s : string) (z : Z) :
  all_chars isdecimal_char s = true → int_of_str s = Some z → 0 ≤ z.
Proof.
  intros Hs%(all_chars_strip_of _ int_space_char). unfold int_of_str.
  destruct (strip_of int_space_char s) as [|c r]; [discriminate|].
  simpl in Hs. apply andb_prop in Hs as [Hc _]. intros Hint.
  assert (int_unsigned (String c r) = Some z) as Hnumber
    by (destruct c as [[|] [|] [|] [|] [|] [|] [|] [|]];
        try (vm_compute in Hc; discriminate Hc); exact Hint).
  unfold int_unsigned in Hnumber.
  destruct (INT_MAX_STR_DIGITS <? _); [discriminate|].
  apply (int_digits_nonnegative (String c r) 0 false); [lia | exact Hnumber].
Qed.

(** The text of a positive integer is made of digits, that of a negative
    one is not. *)
Lemma isdigit_str_of_positive (p : positive) : isdigit (py_str (PyInt (Z.pos p))) = true.
Proof.
  unfold py_str, isdigit. simpl.
  pose proof (string_of_uint_digits (Pos.to_uint p)) as Hdigits.
  unfold NilZero.string_of_uint.
  destruct (Pos.to_uint p); simpl in *; try reflexivity; assumption.
Qed.

Lemma isdigit_str_of_negative (p : positive) : isdigit (py_str (PyInt (Z.neg p))) = false.
Proof. reflexivity. Qed.

(** A log of at most 1000 rows is left whole by the DELETE. *)
Lemma delete_old_heartbeat_logs_small (db : MonitorDb.t) :
  (size (MonitorDb.heartbeat_logs db) ≤ 1000)%nat →
  DatabaseManager.delete_old_heartbeat_logs db = db.
Proof.
  intros Hsize. unfold DatabaseManager.delete_old_heartbeat_logs.
  destruct db as [info m seq notes]. simpl in *. f_equal.
  apply map_filter_id. intros k row Hrow. simpl.
  unfold DatabaseManager.select_recent_ids, DatabaseManager.order_by_timestamp_desc.
  rewrite take_ge.
  - apply (list_elem_of_fmap_2' fst _ (k, row)); [|reflexivity].
    rewrite merge_sort_Permutation. by apply elem_of_map_to_list.
  - rewrite (Permutation_length (merge_sort_Permutation _ _)), length_map_to_list. lia.
Qed.

(** C8, at the version 0: an integer that is not negative, and the
    column is left empty. *)
Lemma version_zero_is_stored_absent :
  let w' := state_after (db_manager.log_heartbeat "A" "10.0.0.9" (PyInt 0))
              (world_with None) in
  logs w' !! 1 = Some (HeartbeatLog.make "A" "10.0.0.9" 0 None).
Proof. vm_compute. reflexivity. Qed.

(** Two versions outside the amended claim: the integer 2^63, which
    SQLite cannot bind, and a superscript digit, which [int()] cannot
    read.  For both the row is not written. *)
Lemma version_unstorable_drops_the_entry :
  let w := world_with None in
  logs (state_after (db_manager.log_heartbeat "A" "10.0.0.9" (PyInt (2 ^ 63))) w) = ∅ ∧
  logs (state_after (db_manager.log_heartbeat "A" "10.0.0.9" (PyStr superscript_two)) w) = ∅.
Proof. split; vm_compute; reflexivity. Qed.

(** C8, amended.  For a version that is None, a boolean, an integer that
    is not positive, or a text not made of digits, the call inserts a
    row whose [version] is empty; for a positive integer below 2^63, or a
    string of decimal digits that reads as a number below 2^63, it
    inserts a row whose [version] is that number.  In each case the row
    is inserted, stamped with the reading taken, and the table is then
    trimmed; when the log held fewer than 1000 rows the new row is there
    afterwards under its rowid. *)
Theorem version_is_stored_or_absent
    (w : World) (device_id ip_address : string) (version : pyval) (stored : option Z) :
  stored_as version stored →
  let w' := state_after (db_manager.log_heartbeat device_id ip_address version) w in
  let row := HeartbeatLog.make (slice_to 255 device_id) (slice_to 45 ip_address)
               (clock w (ticks w)) stored in
  monitor_db w' =
    DatabaseManager.delete_old_heartbeat_logs
      (DatabaseManager.insert_heartbeat_log row (monitor_db w)) ∧
  ((size (logs w) < 1000)%nat →
   logs w' !! DatabaseManager.next_rowid (monitor_db w) = Some row).
Proof.
  intros Hstored w' row.
  assert (monitor_db w' =
            DatabaseManager.delete_old_heartbeat_logs
              (DatabaseManager.insert_heartbeat_log row (monitor_db w))) as Hdb.
  { subst w' row. unfold DatabaseManager.log_heartbeat.
    destruct Hstored as [|b|z Hz|z Hpos Hz|s z Hs Hint Hz|s Hs|t s Hs].
    - reflexivity.
    - by destruct b.
    - destruct z as [|p|p]; [reflexivity | lia |].
      rewrite isdigit_str_of_negative, andb_false_r. reflexivity.
    - destruct z as [|p|p]; [lia | | lia].
      rewrite isdigit_str_of_positive. unfold_py. simpl.
      assert (DatabaseManager.sqlite_int64 (Z.pos p) = true) as ->; [|reflexivity].
      unfold DatabaseManager.sqlite_int64. apply andb_true_intro.
      split; [apply Z.leb_le | apply Z.ltb_lt]; lia.
    - assert (py_bool (PyStr s) = true) as ->
        by (by apply andb_prop in Hs as [? _]).
      simpl. rewrite (decimal_string_isdigit s Hs). unfold_py. simpl. rewrite Hint. simpl.
      assert (0 ≤ z → DatabaseManager.sqlite_int64 z = true) as Hfits.
      { intros Hz0. unfold DatabaseManager.sqlite_int64. apply andb_true_intro.
        split; [apply Z.leb_le | apply Z.ltb_lt]; lia. }
      rewrite Hfits; [reflexivity|].
      apply (int_of_str_decimal s); [|assumption].
      by apply andb_prop in Hs as [_ ?].
    - simpl. rewrite Hs, andb_false_r. reflexivity.
    - simpl. rewrite Hs, andb_false_r. reflexivity. }
  split; [exact Hdb|].
  intros Hsize. unfold logs at 1. rewrite Hdb.
  rewrite delete_old_heartbeat_logs_small.
  - simpl. apply lookup_insert_eq.
  - simpl. rewrite map_size_insert_None by apply next_rowid_fresh. unfold logs in Hsize. lia.
Qed.

(** ** The theorems at concrete inputs *)

Lemma heartbeat_log_bounded_witness :
  (size (logs (world_with None)) ≤ 1000)%nat ∧
  (size (logs (state_after (log_all two_heartbeats) (world_with None))) ≤ 1000)%nat.
Proof.
  assert (size (logs (world_with None)) ≤ 1000)%nat as Hsize by (vm_compute; lia).
  split; [exact Hsize|].
  exact (proj1 (heartbeat_log_bounded_oldest_first (world_with None) two_heartbeats Hsize)).
Defined.

Lemma created_at_is_fixed_witness :
  let w := world_with None in
  let w1 := state_after (db_manager.update_device_info report_X.1 report_X.2) w in
  let wN := state_after (report_all [report_X; report_X]) w1 in
  reports "X" report_X.1 ∧
  Forall (λ c : gmap string pyval * string, reports "X" c.1) [report_X; report_X] ∧
  ∃ rowN,
    MonitorDb.device_info (monitor_db wN) !! "X" = Some rowN ∧
    DeviceInfo.created_at rowN = 0 ∧
    DeviceInfo.last_seen rowN = 2000000 ∧
    DeviceInfo.created_at rowN ≤ DeviceInfo.last_seen rowN.
Proof.
  intros w w1 wN.
  assert (reports "X" report_X.1) as Hfirst
    by (split; [reflexivity | split; [reflexivity | discriminate]]).
  assert (Forall (λ c : gmap string pyval * string, reports "X" c.1) [report_X; report_X])
    as Hrest by (repeat constructor; discriminate).
  split; [exact Hfirst|]. split; [exact Hrest|].
  destruct (created_at_is_fixed_by_first_report w "X" report_X [report_X; report_X]
              Hfirst Hrest)
    as (row1 & rowN & Hrow1 & HrowN & Hcreated1 & HcreatedN & Hseen & _ & Horder).
  exists rowN. split; [exact HrowN|].
  split; [rewrite HcreatedN, Hcreated1; reflexivity|].
  split; [rewrite Hseen; reflexivity|].
  apply Horder.
  - intros i j Hij. unfold w, world_with, second_clock. simpl. lia.
  - intros X row Hrow. vm_compute in Hrow. discriminate Hrow.
Defined.

Lemma unregistered_report_witness :
  let w := world_with (Some registry_A) in
  let w' := state_after (sysinfo sysinfo_X) w in
  Peer.id <$> known_peers w = ["A"] ∧
  DeviceInfo.hostname <$> MonitorDb.device_info (monitor_db w') !! "X" = Some "pc-17" ∧
  ∃ ds, result_of get_devices w' = Returns ds ∧ "X" ∉ Device.id <$> devices ds.
Proof.
  intros w w'.
  assert (Peer.id <$> known_peers w = ["A"]) as Hknown by reflexivity.
  split; [exact Hknown|]. split; [reflexivity|].
  apply (unregistered_report_is_stored_but_not_listed w sysinfo_X report_X.1 "X").
  - reflexivity.
  - reflexivity.
  - split; [reflexivity | split; [reflexivity | discriminate]].
  - rewrite Hknown. apply (bool_decide_unpack _). vm_compute. exact I.
Defined.

Lemma heartbeat_over_declared_limit_witness :
  let w := world_with None in
  let request := request_with (Some "15000") 15000 None in
  headers request !! "content-length" = Some "15000" ∧
  int_of_str "15000" = Some 15000 ∧
  heartbeat request w = (Raises (HTTPException 413 "请求体过大"), w).
Proof.
  intros w request.
  split; [reflexivity|]. split; [reflexivity|].
  apply (heartbeat_over_declared_limit w request "15000" 15000); [reflexivity.. | lia].
Defined.

Lemma heartbeat_without_id_witness :
  let w := world_with None in
  py_bool (dict_get {[ "id" := PyStr "" ]} "id" PyNone) = false ∧
  result_of (heartbeat empty_id_heartbeat) w = Returns (Ok "心跳包接收成功" 0) ∧
  same_stores w (state_after (heartbeat empty_id_heartbeat) w).
Proof.
  intros w.
  assert (py_bool (dict_get {[ "id" := PyStr "" ]} "id" PyNone) = false) as Hid
    by reflexivity.
  split; [exact Hid|].
  destruct (proj1 (heartbeat_without_id_is_acknowledged w empty_id_heartbeat)
              {[ "id" := PyStr "" ]}) as (Hresult & Hstores & _);
    [reflexivity | reflexivity | exact Hid |].
  split; [exact Hresult | exact Hstores].
Defined.

Lemma version_is_stored_witness :
  let w := world_with None in
  let w' := state_after (db_manager.log_heartbeat "A" "10.0.0.9" (PyInt 1002003)) w in
  stored_as (PyInt 1002003) (Some 1002003) ∧
  logs w' !! 1 = Some (HeartbeatLog.make "A" "10.0.0.9" 0 (Some 1002003)).
Proof.
  intros w w'.
  assert (stored_as (PyInt 1002003) (Some 1002003)) as Hstored
    by (apply stored_positive; lia).
  split; [exact Hstored|].
  apply (proj2 (version_is_stored_or_absent w "A" "10.0.0.9" (PyInt 1002003)
                  (Some 1002003) Hstored)).
  vm_compute. lia.
Defined.

Lemma note_round_trip_witness :
  let w := world_with None in
  let w1 := state_after (db_manager.update_device_note (PyStr "A") (PyStr "desk 4")) w in
  let w2 := state_after (db_manager.update_device_note (PyStr "A") (PyStr "")) w1 in
  (String.length "A" ≤ 255)%nat ∧
  result_of (db_manager.get_device_note (PyStr "A")) w1 = Returns "desk 4" ∧
  result_of (db_manager.get_device_note (PyStr "A")) w2 = Returns "".
Proof.
  intros w w1 w2.
  assert (String.length "A" ≤ 255)%nat as Hlen by (simpl; lia).
  split; [exact Hlen|].
  exact (note_round_trip w "A" "desk 4" "" Hlen).
Defined.

(** * Further properties *)

(** ** Escaping and display helpers *)

Lemma all_chars_app (p : ascii → bool) (a b : string) :
  all_chars p (a +:+ b) = all_chars p a && all_chars p b.
Proof.
  induction a as [|c a IH]; simpl; [reflexivity|]. rewrite IH. by destruct (p c).
Qed.

Lemma append_assoc (a b c : string) : (a +:+ b) +:+ c = a +:+ (b +:+ c).
Proof.
  induction a as [|x a IH]; [reflexivity|].
  change (String x ((a +:+ b) +:+ c) = String x (a +:+ (b +:+ c))). by rewrite IH.
Qed.

Lemma replace_char_app (old : ascii) (new a b : string) :
  replace_char old new (a +:+ b) = replace_char old new a +:+ replace_char old new b.
Proof.
  induction a as [|c a IH]; simpl; [reflexivity|].
  destruct (Ascii.eqb c old); simpl; rewrite IH; [|reflexivity].
  by rewrite append_assoc.
Qed.

(** The five replacements of [html.escape], made one after the other,
    come to one substitution per character. *)
Lemma html_escape_cons (c : ascii) (s : string) :
  html_escape (String c s) = escape_char c +:+ html_escape s.
Proof.
  unfold html_escape, escape_char. simpl.
  repeat (case_match; simpl; try reflexivity).
Qed.

Lemma escape_char_cases (c : ascii) :
  (c = "&"%char ∧ escape_char c = "&amp;") ∨
  (c = "<"%char ∧ escape_char c = "&lt;") ∨
  (c = ">"%char ∧ escape_char c = "&gt;") ∨
  (c = double_quote ∧ escape_char c = "&quot;") ∨
  (c = "'"%char ∧ escape_char c = "&#x27;") ∨
  (c ≠ "&"%char ∧ markup_char c = false ∧ escape_char c = String c "").
Proof.
  unfold escape_char, markup_char.
  destruct (Ascii.eqb_spec c "&"); [by left|right].
  destruct (Ascii.eqb_spec c "<"); [by left|right].
  destruct (Ascii.eqb_spec c ">"); [by left|right].
  destruct (Ascii.eqb_spec c double_quote); [by left|right].
  destruct (Ascii.eqb_spec c "'"); [by left|right]. done.
Qed.

Lemma escape_char_no_markup (c : ascii) :
  all_chars (λ x, negb (markup_char x)) (escape_char c) = true.
Proof.
  destruct (escape_char_cases c) as
    [[_ ->]|[[_ ->]|[[_ ->]|[[_ ->]|[[_ ->]|(_ & Hc & ->)]]]]]; try reflexivity.
  simpl. by rewrite Hc.
Qed.

(** X1. Whatever it is given, [safe_html_escape] returns a text with no
    [<], no [>] and no quote of either kind in it; for a false value
    (None, False, 0, the empty text) it returns the empty text. *)
Theorem safe_html_escape_no_markup (text : pyval) :
  (py_bool text = false → safe_html_escape text = "") ∧
  all_chars (λ c, negb (markup_char c)) (safe_html_escape text) = true.
Proof.
  unfold safe_html_escape. split; [by intros ->|].
  destruct (py_bool text); simpl; [|reflexivity].
  induction (py_str text) as [|c s IH]; [reflexivity|].
  by rewrite html_escape_cons, all_chars_app, escape_char_no_markup, IH.
Qed.

Lemma escape_char_first (c : ascii) :
  ∃ x rest, escape_char c = String x rest ∧
    (c ≠ "&"%char → markup_char c = false → x = c ∧ rest = "").
Proof.
  destruct (escape_char_cases c) as
    [[-> ->]|[[-> ->]|[[-> ->]|[[-> ->]|[[-> ->]|(Hamp & Hc & ->)]]]]];
    eexists _, _; (split; [reflexivity|]); intros H1 H2;
    try (by exfalso); try discriminate H2; by split.
Qed.

Lemma html_escape_injective (a b : string) : html_escape a = html_escape b → a = b.
Proof.
  revert b. induction a as [|x a IH]; intros [|y b].
  - reflexivity.
  - rewrite html_escape_cons.
    destruct (escape_char_first y) as (c & rest & -> & _). discriminate.
  - rewrite html_escape_cons.
    destruct (escape_char_first x) as (c & rest & -> & _). discriminate.
  - rewrite !html_escape_cons.
    destruct (escape_char_cases x) as
      [[-> ->]|[[-> ->]|[[-> ->]|[[-> ->]|[[-> ->]|(Hx & Hmx & ->)]]]]];
    destruct (escape_char_cases y) as
      [[-> ->]|[[-> ->]|[[-> ->]|[[-> ->]|[[-> ->]|(Hy & Hmy & ->)]]]]];
    simpl; intros Heq; injection Heq as Heq;
    try discriminate; try congruence;
    try (f_equal; by apply IH).
    subst. f_equal. by apply IH.
Qed.

(** X2. [safe_html_escape] loses nothing of a text: two texts with the
    same escaped form are the same text. *)
Theorem safe_html_escape_injective (a b : string) :
  safe_html_escape (PyStr a) = safe_html_escape (PyStr b) → a = b.
Proof.
  intros Heq. apply html_escape_injective.
  unfold safe_html_escape in Heq.
  by destruct a, b.
Qed.

Lemma lower_app (a b : string) : lower (a +:+ b) = lower a +:+ lower b.
Proof.
  induction a as [|c a IH]; [reflexivity|].
  change (String (lower_char c) (lower (a +:+ b)) =
          String (lower_char c) (lower a +:+ lower b)). by rewrite IH.
Qed.

Lemma lower_length (s : string) : String.length (lower s) = String.length s.
Proof. induction s as [|c s IH]; simpl; [reflexivity | by rewrite IH]. Qed.

Lemma slice_from_app (a b : string) : slice_from (String.length a) (a +:+ b) = b.
Proof. induction a as [|c a IH]; simpl; [by destruct b | exact IH]. Qed.

Lemma prefix_app (a b : string) : String.prefix a (a +:+ b) = true.
Proof.
  induction a as [|c a IH]; simpl; [by destruct b|].
  destruct (ascii_dec c c); [exact IH | contradiction].
Qed.

(** X3. [simplify_os_info] removes the ten characters [windows / ] from
    the front of a text in whatever case they are written, and returns
    what follows them unchanged. *)
Theorem simplify_os_info_strips_prefix (prefix rest : string) :
  lower prefix = "windows / " →
  simplify_os_info (PyStr (prefix +:+ rest)) = rest.
Proof.
  intros Hprefix.
  assert (String.length prefix = 10%nat) as Hlen
    by (by rewrite <- lower_length, Hprefix).
  unfold simplify_os_info.
  assert (py_bool (PyStr (prefix +:+ rest)) = true) as -> by (by destruct prefix).
  cbv beta iota zeta delta [negb py_str].
  rewrite lower_app, Hprefix, prefix_app.
  rewrite <- Hlen. apply slice_from_app.
Qed.

Lemma simplify_os_info_witness :
  lower "Windows / " = "windows / " ∧
  simplify_os_info (PyStr ("Windows / " +:+ "Windows 11 Pro")) = "Windows 11 Pro".
Proof.
  split; [reflexivity|].
  apply (simplify_os_info_strips_prefix "Windows / " "Windows 11 Pro"). reflexivity.
Defined.

(** ** The client address *)

Lemma all_chars_slice_to (p : ascii → bool) (n : nat) (s : string) :
  all_chars p s = true → all_chars p (slice_to n s) = true.
Proof.
  revert s. induction n as [|n IH]; intros [|c s]; unfold slice_to; fold slice_to;
    simpl; try reflexivity.
  intros [Hc Hs]%andb_prop. by rewrite Hc, IH.
Qed.

Lemma before_comma_comma_free (s : string) : comma_free (before_comma s) = true.
Proof.
  unfold comma_free. induction s as [|c s IH]; simpl; [reflexivity|].
  destruct (Ascii.eqb c ",") eqn:Hc; simpl; [reflexivity|]. by rewrite Hc, IH.
Qed.

(** X4. The client address [get_client_ip] returns is never longer than
    45 characters, whichever of the three sources it comes from; when it
    comes from an [x-forwarded-for] header it holds no comma, being cut
    from the first entry of the header's list. *)
Theorem get_client_ip_bounded (request : Request) :
  (String.length (get_client_ip request) ≤ 45)%nat ∧
  (is_Some (headers request !! "x-forwarded-for") →
   comma_free (get_client_ip request) = true).
Proof.
  unfold get_client_ip. split.
  - repeat case_match; try apply slice_to_length. vm_compute. lia.
  - intros [v Hv]. rewrite Hv.
    apply all_chars_slice_to. unfold strip. apply all_chars_strip_of.
    apply before_comma_comma_free.
Qed.

(** ** The headers written to the log *)

Lemma logged_headers_snoc (items : list (string * string)) (item : string * string) :
  logged_headers (items ++ [item]) =
    if bool_decide (lower item.1 ∈ ["authorization"; "cookie"; "x-api-key"])
    then logged_headers items
    else <[item.1 := slice_to 200 item.2]> (logged_headers items).
Proof. unfold logged_headers. by rewrite foldl_app. Qed.

(** X5. The headers [log_unknown_requests] writes to the log never
    include [authorization], [cookie] or [x-api-key], in whatever case
    the name is written; each value logged is a value of the request cut
    to 200 characters; and every header of another name is logged. *)
Theorem logged_headers_safe (items : list (string * string)) :
  (∀ name value, logged_headers items !! name = Some value →
     (lower name ∉ ["authorization"; "cookie"; "x-api-key"]) ∧
     (String.length value ≤ 200)%nat ∧
     ∃ v, (name, v) ∈ items ∧ value = slice_to 200 v) ∧
  (∀ name v, (name, v) ∈ items →
     lower name ∉ ["authorization"; "cookie"; "x-api-key"] →
     is_Some (logged_headers items !! name)).
Proof.
  induction items as [|item items [IH1 IH2]] using rev_ind.
  - split; [intros name value Hlookup | intros name v Hin].
    + unfold logged_headers in Hlookup. simpl in Hlookup.
      by rewrite lookup_empty in Hlookup.
    + by apply elem_of_nil in Hin.
  - rewrite logged_headers_snoc. split.
    + intros name value. case_bool_decide as Hsensitive.
      * intros Hlookup. destruct (IH1 name value Hlookup) as (H1 & H2 & v & Hv & ->).
        split; [assumption|]. split; [assumption|].
        exists v. split; [|reflexivity]. apply elem_of_app. by left.
      * rewrite lookup_insert. case_decide as Hname.
        -- intros [= <-]. subst name. split; [assumption|].
           split; [apply slice_to_length|].
           exists item.2. split; [|reflexivity].
           apply elem_of_app. right. destruct item. by apply list_elem_of_singleton.
        -- intros Hlookup. destruct (IH1 name value Hlookup) as (H1 & H2 & v & Hv & ->).
           split; [assumption|]. split; [assumption|].
           exists v. split; [|reflexivity]. apply elem_of_app. by left.
    + intros name v Hin Hname. case_bool_decide as Hsensitive.
      * apply elem_of_app in Hin as [Hin|Hin]; [by eapply IH2|].
        apply list_elem_of_singleton in Hin. subst item. contradiction.
      * rewrite lookup_insert. case_decide as Hitem; [by eexists|].
        apply elem_of_app in Hin as [Hin|Hin]; [by eapply IH2|].
        apply list_elem_of_singleton in Hin. subst item. contradiction.
Qed.

Lemma safe_html_escape_injective_witness :
  safe_html_escape (PyStr "a<b") = safe_html_escape (PyStr "a<b") ∧ "a<b" = "a<b".
Proof.
  split; [reflexivity|].
  apply (safe_html_escape_injective "a<b" "a<b"). reflexivity.
Defined.

(** ** The heartbeat log as [log_heartbeat] leaves it *)

(** One call in full: it returns, having read the clock at most once,
    and has either left the database as it was or inserted a row and
    trimmed. *)
Lemma log_heartbeat_run (w : World) (device_id ip_address : string) (version : pyval) :
  ∃ w1, DatabaseManager.log_heartbeat device_id ip_address version w = (Returns (), w1) ∧
    (w1 = w ∨ w1 = set_ticks (S (ticks w)) w ∨
     ∃ stored,
       from_option (λ z, 0 ≤ z < 2 ^ 63) True stored ∧
       w1 = set_monitor_db
              (DatabaseManager.delete_old_heartbeat_logs
                 (DatabaseManager.insert_heartbeat_log
                    (HeartbeatLog.make (slice_to 255 device_id) (slice_to 45 ip_address)
                       (clock w (ticks w)) stored)
                    (monitor_db w)))
              (set_ticks (S (ticks w)) w)).
Proof.
  assert (∀ z, DatabaseManager.sqlite_int64 z = true → - 2 ^ 63 ≤ z < 2 ^ 63) as Hfits.
  { intros z [H1 H2]%andb_prop. apply Z.leb_le in H1. apply Z.ltb_lt in H2. lia. }
  unfold DatabaseManager.log_heartbeat.
  destruct (py_bool version && isdigit (py_str version)) eqn:Hdigits.
  - apply andb_prop in Hdigits as [Htrue Hdigits].
    unfold DatabaseManager.py_int.
    destruct version as [|b|z|s|t s]; unfold_py; simpl.
    + discriminate Htrue.
    + by destruct b.
    + destruct (DatabaseManager.sqlite_int64 z) eqn:Hbind; simpl.
      * eexists. split; [reflexivity|]. right. right. exists (Some z). split; [|reflexivity].
        simpl. destruct z as [|p|p]; [discriminate Htrue | |].
        -- apply Hfits in Hbind. lia.
        -- by rewrite isdigit_str_of_negative in Hdigits.
      * eexists. split; [reflexivity|]. right. by left.
    + destruct (int_of_str s) as [z|] eqn:Hint; simpl.
      * destruct (DatabaseManager.sqlite_int64 z) eqn:Hbind; simpl.
        -- eexists. split; [reflexivity|]. right. right. exists (Some z).
           split; [|reflexivity]. simpl. apply Hfits in Hbind.
           split; [|lia].
           destruct (decide (0 ≤ z)) as [|Hneg]; [assumption|]. exfalso.
           revert Hint. unfold int_of_str.
           assert (all_chars isdigit_char (strip_of int_space_char s) = true) as Hall.
           { apply all_chars_strip_of. unfold isdigit in Hdigits.
             by apply andb_prop in Hdigits as [_ ?]. }
           destruct (strip_of int_space_char s) as [|c r]; [discriminate|].
           simpl in Hall. apply andb_prop in Hall as [Hc _].
           assert (∀ r0, int_unsigned r0 = Some z → False) as Hunsigned.
           { intros r0. unfold int_unsigned.
             destruct (INT_MAX_STR_DIGITS <? _); [discriminate|].
             intros Hz%int_digits_nonnegative; lia. }
           destruct c as [[|] [|] [|] [|] [|] [|] [|] [|]];
             try (vm_compute in Hc; discriminate Hc); apply Hunsigned.
        -- eexists. split; [reflexivity|]. right. by left.
      * eexists. split; [reflexivity|]. by left.
    + eexists. split; [reflexivity|]. by left.
  - unfold_py. simpl. eexists. split; [reflexivity|]. right. right.
    exists None. by split.
Qed.

Lemma log_heartbeat_only_touches_log_aux
    (w : World) (device_id ip_address : string) (version : pyval) (w1 : World) :
  DatabaseManager.log_heartbeat device_id ip_address version w = (Returns (), w1) →
  clock w1 = clock w ∧ peer_db w1 = peer_db w ∧ online_devices w1 = online_devices w ∧
  same_telemetry_and_notes w w1.
Proof.
  intros Hrun.
  destruct (log_heartbeat_run w device_id ip_address version)
    as (w2 & Hrun2 & Hcases).
  assert (w2 = w1) as -> by congruence.
  destruct Hcases as [->|[->|(stored & _ & ->)]]; by repeat split.
Qed.

Lemma log_heartbeat_frame (w : World) (device_id ip_address : string) (version : pyval) :
  ∃ w1, DatabaseManager.log_heartbeat device_id ip_address version w = (Returns (), w1) ∧
    clock w1 = clock w ∧ (ticks w ≤ ticks w1 ≤ S (ticks w))%nat.
Proof.
  destruct (log_heartbeat_run w device_id ip_address version)
    as (w1 & Hrun & [->|[->|(stored & _ & ->)]]);
    eexists; (split; [exact Hrun|]); simpl; (split; [reflexivity | lia]).
Qed.

(** X6. [log_heartbeat] never raises, whatever version it is given.  It
    reads the clock at most once and touches nothing but the heartbeat
    log and its counter: registry, telemetry rows, notes and presence
    table are as before. *)
Theorem log_heartbeat_only_touches_log
    (w : World) (device_id ip_address : string) (version : pyval) :
  ∃ w1, DatabaseManager.log_heartbeat device_id ip_address version w = (Returns (), w1) ∧
    clock w1 = clock w ∧ (ticks w ≤ ticks w1 ≤ S (ticks w))%nat ∧
    peer_db w1 = peer_db w ∧ online_devices w1 = online_devices w ∧
    same_telemetry_and_notes w w1.
Proof.
  destruct (log_heartbeat_run w device_id ip_address version)
    as (w1 & Hrun & [->|[->|(stored & _ & ->)]]);
    eexists; (split; [exact Hrun|]); simpl; repeat split; lia.
Qed.

(** ** The heartbeat handler in full *)

Lemma check_content_length_cases (request : Request) (limit : Z) (w : World) :
  check_content_length request limit w = (Returns (), w) ∨
  check_content_length request limit w = (Raises (HTTPException 413 "请求体过大"), w) ∨
  check_content_length request limit w = (Raises ValueError, w).
Proof.
  unfold check_content_length, DatabaseManager.py_int.
  destruct (headers request !! "content-length") as [v|]; [|by left].
  destruct (str_bool v); [|by left]. unfold_py.
  destruct (int_of_str v) as [n|]; simpl; [|by right; right].
  destruct (limit <? n); [right|]; by left.
Qed.

(** A heartbeat with a device id that passes the checks: the log call,
    a reading for the presence entry, the entry, a reading for the
    answer. *)
Lemma heartbeat_accepted_run (w w1 : World) (request : Request)
    (body : gmap string pyval) :
  check_content_length request 10240 w = (Returns (), w) →
  json request = Some (JsonObject body) →
  py_bool (dict_get body "id" PyNone) = true →
  db_manager.log_heartbeat (slice_to 255 (py_str (dict_get body "id" PyNone)))
    (get_client_ip request) (dict_get body "ver" (PyInt 0)) w = (Returns (), w1) →
  heartbeat request w =
    (Returns (Ok "心跳包接收成功" (clock w1 (S (ticks w1)))),
     set_ticks (S (S (ticks w1)))
       (set_online_devices
          (<[slice_to 255 (py_str (dict_get body "id" PyNone)) :=
               Online.make (clock w1 (ticks w1)) (get_client_ip request) body]>
             (online_devices w1))
          w1)).
Proof.
  intros Hsize Hjson Hid Hlog.
  unfold heartbeat, request_json. unfold_py.
  rewrite Hsize, Hjson. simpl. rewrite Hid, Hlog. reflexivity.
Qed.

(** The states a heartbeat can leave: the one it found, that one with
    one more reading taken, or the one of an accepted heartbeat that
    names its device. *)
Lemma heartbeat_cases (w : World) (request : Request) :
  state_after (heartbeat request) w = w ∨
  state_after (heartbeat request) w = set_ticks (S (ticks w)) w ∨
  ∃ body w1,
    check_content_length request 10240 w = (Returns (), w) ∧
    json request = Some (JsonObject body) ∧
    py_bool (dict_get body "id" PyNone) = true ∧
    db_manager.log_heartbeat (slice_to 255 (py_str (dict_get body "id" PyNone)))
      (get_client_ip request) (dict_get body "ver" (PyInt 0)) w = (Returns (), w1).
Proof.
  destruct (check_content_length_cases request 10240 w) as [Hsize|[Hsize|Hsize]].
  - destruct (json request) as [[body|]|] eqn:Hjson.
    + destruct (py_bool (dict_get body "id" PyNone)) eqn:Hid.
      * right. right.
        destruct (log_heartbeat_run w (slice_to 255 (py_str (dict_get body "id" PyNone)))
                    (get_client_ip request) (dict_get body "ver" (PyInt 0)))
          as (w1 & Hlog & _).
        by exists body, w1.
      * right. left. unfold state_after.
        rewrite (heartbeat_without_id_run w request body); [reflexivity | | assumption..].
        unfold result_of. by rewrite Hsize.
    + left. unfold state_after, heartbeat, request_json. unfold_py.
      rewrite Hsize, Hjson. reflexivity.
    + right. left. unfold state_after, heartbeat, request_json. unfold_py.
      rewrite Hsize, Hjson. reflexivity.
  - left. unfold state_after, heartbeat. unfold_py. rewrite Hsize. reflexivity.
  - right. left. unfold state_after, heartbeat. unfold_py. rewrite Hsize. reflexivity.
Qed.

(** X7. No heartbeat request, accepted or refused, changes the registry,
    a telemetry row or a note; and none removes or changes the presence
    entry of a device other than the one it names: the presence table
    only grows. *)
Theorem heartbeat_keeps_other_stores (w : World) (request : Request) :
  let w' := state_after (heartbeat request) w in
  peer_db w' = peer_db w ∧ same_telemetry_and_notes w w' ∧ clock w' = clock w ∧
  (∀ device_id, is_Some (online_devices w !! device_id) →
     is_Some (online_devices w' !! device_id)) ∧
  (∀ device_id entry, online_devices w !! device_id = Some entry →
     online_devices w' !! device_id = Some entry ∨
     ∃ body, json request = Some (JsonObject body) ∧
       device_id = slice_to 255 (py_str (dict_get body "id" PyNone))).
Proof.
  intros w'. subst w'.
  destruct (heartbeat_cases w request) as [->|[->|(body & w1 & Hsize & Hjson & Hid & Hlog)]].
  - repeat split; auto.
  - repeat split; auto.
  - unfold state_after. rewrite (heartbeat_accepted_run w w1 request body); try assumption.
    destruct (log_heartbeat_only_touches_log_aux w
                (slice_to 255 (py_str (dict_get body "id" PyNone)))
                (get_client_ip request) (dict_get body "ver" (PyInt 0)) w1 Hlog)
      as (Hclock & Hpeer & Honline & Htel).
    simpl. rewrite Honline.
    split; [assumption|]. split; [assumption|]. split; [assumption|]. split.
    + intros device_id Hsome. rewrite lookup_insert. by case_decide.
    + intros device_id entry Hentry. rewrite lookup_insert. case_decide as Hname.
      * right. by exists body.
      * by left.
Qed.

(** X8. A heartbeat that passes the size check and carries a device id
    puts the device into the presence table whatever else it carries,
    also when its version is one the heartbeat log cannot store: the
    entry sits under the first 255 characters of the id, with the client
    address, the body as received, and as time of the heartbeat a reading
    of the clock made during the request. *)
Theorem heartbeat_records_presence
    (w : World) (request : Request) (body : gmap string pyval) :
  result_of (check_content_length request 10240) w = Returns () →
  json request = Some (JsonObject body) →
  py_bool (dict_get body "id" PyNone) = true →
  let w' := state_after (heartbeat request) w in
  ∃ n, (ticks w ≤ n ≤ S (ticks w))%nat ∧
    result_of (heartbeat request) w = Returns (Ok "心跳包接收成功" (clock w (S n))) ∧
    online_devices w' !! slice_to 255 (py_str (dict_get body "id" PyNone)) =
      Some (Online.make (clock w n) (get_client_ip request) body).
Proof.
  intros Hsize Hjson Hid w'. subst w'.
  assert (check_content_length request 10240 w = (Returns (), w)) as Hcheck.
  { pose proof (check_content_length_state request 10240 w) as Hst.
    unfold result_of in Hsize.
    destruct (check_content_length request 10240 w) as [r w0]. simpl in *. congruence. }
  destruct (log_heartbeat_frame w
              (slice_to 255 (py_str (dict_get body "id" PyNone)))
              (get_client_ip request) (dict_get body "ver" (PyInt 0)))
    as (w1 & Hlog & Hclock & Hticks).
  exists (ticks w1). split; [exact Hticks|].
  unfold result_of, state_after.
  rewrite (heartbeat_accepted_run w w1 request body Hcheck Hjson Hid Hlog). simpl.
  rewrite Hclock. split; [reflexivity|]. apply lookup_insert_eq.
Qed.

Lemma heartbeat_records_presence_witness :
  let w := world_with None in
  let request :=
    request_with None 40 (Some (JsonObject {[ "id" := PyStr "A"; "ver" := PyInt (2 ^ 63) ]})) in
  py_bool (dict_get {[ "id" := PyStr "A"; "ver" := PyInt (2 ^ 63) ]} "id" PyNone) = true ∧
  logs (state_after (heartbeat request) w) = ∅ ∧
  ∃ n, online_devices (state_after (heartbeat request) w) !! "A" =
         Some (Online.make (clock w n) "10.0.0.9"
                 {[ "id" := PyStr "A"; "ver" := PyInt (2 ^ 63) ]}).
Proof.
  intros w request. split; [reflexivity|]. split; [vm_compute; reflexivity|].
  destruct (heartbeat_records_presence w request
              {[ "id" := PyStr "A"; "ver" := PyInt (2 ^ 63) ]})
    as (n & _ & _ & Hentry); [reflexivity..|].
  exists n. exact Hentry.
Defined.

(** ** The health probe *)

Lemma health_online_size (w : World) : health_online w = Z.of_nat (size (online_devices w)).
Proof. reflexivity. Qed.

(** X9. The health probe always answers healthy, and the number of
    online devices it reports is the number of entries of the presence
    table, with the timeout of 90 seconds beside it.  A heartbeat request
    never lowers that number, however old the entries are: after the
    request it is the same or one more, one more only for an accepted
    heartbeat whose device had no entry. *)
Theorem health_count_never_falls (w : World) (request : Request) :
  let w' := state_after (heartbeat request) w in
  (∃ registry_exists monitor_exists now,
     result_of health_check w =
       Returns (Healthy registry_exists monitor_exists
                  (Z.of_nat (size (online_devices w))) 90 now)) ∧
  health_online w = Z.of_nat (size (online_devices w)) ∧
  health_online w ≤ health_online w' ≤ health_online w + 1 ∧
  (health_online w' = health_online w + 1 →
   ∃ body, json request = Some (JsonObject body) ∧
     py_bool (dict_get body "id" PyNone) = true ∧
     online_devices w !! slice_to 255 (py_str (dict_get body "id" PyNone)) = None).
Proof.
  intros w'. subst w'.
  split; [by eexists _, _, _|]. split; [apply health_online_size|].
  rewrite !health_online_size.
  destruct (heartbeat_cases w request) as [->|[->|(body & w1 & Hsize & Hjson & Hid & Hlog)]].
  - split; lia.
  - simpl. split; lia.
  - unfold state_after. rewrite (heartbeat_accepted_run w w1 request body); try assumption.
    destruct (log_heartbeat_only_touches_log_aux w _ _ _ w1 Hlog) as (_ & _ & Honline & _).
    simpl. rewrite Honline.
    destruct (online_devices w !! slice_to 255 (py_str (dict_get body "id" PyNone)))
      as [entry|] eqn:Hentry.
    + rewrite map_size_insert_Some by eauto. split; lia.
    + rewrite map_size_insert_None by assumption. split; [lia|].
      intros _. by exists body.
Qed.

(** ** The home page *)

Lemma count_online_run (peers : list Peer.t) (count : Z) (w : World) :
  ∃ ds w',
    RustDeskMonitor.for_each merge_device peers w = (Returns ds, w') ∧
    count_online peers count w =
      (Returns (count + len (filter (λ d, Device.is_online d = true) ds)), w').
Proof.
  revert count w. induction peers as [|peer peers IH]; intros count w.
  - exists [], w. split; [reflexivity|]. simpl. unfold_py. f_equal. f_equal.
    unfold len. simpl. lia.
  - simpl. unfold merge_device, db_manager.get_device_info, db_manager.get_device_note,
      check_online. unfold_py. simpl.
    destruct (online_devices w !! Peer.id peer) as [entry|] eqn:Hentry; simpl.
    + destruct (IH (if clock w (ticks w) - Online.last_heartbeat entry
                       <? timedelta OFFLINE_TIMEOUT_SECONDS
                    then count + 1 else count)
                  (set_ticks (S (ticks w)) w)) as (ds & w' & Hds & Hcount).
      unfold merge_device, db_manager.get_device_info, db_manager.get_device_note,
        check_online in Hds. unfold_py. simpl in Hds. rewrite Hds.
      eexists _, w'. split; [reflexivity|].
      destruct (clock w (ticks w) - Online.last_heartbeat entry
                <? timedelta OFFLINE_TIMEOUT_SECONDS) eqn:Hfresh.
      * rewrite Hcount, filter_cons_True by (simpl; reflexivity).
        unfold len. simpl length. do 2 f_equal. lia.
      * rewrite Hcount, filter_cons_False by (simpl; congruence). reflexivity.
    + destruct (IH count w) as (ds & w' & Hds & Hcount).
      unfold merge_device, db_manager.get_device_info, db_manager.get_device_note,
        check_online in Hds. unfold_py. simpl in Hds. rewrite Hds.
      eexists _, w'. split; [reflexivity|].
      rewrite Hcount, filter_cons_False by (simpl; congruence). reflexivity.
Qed.

(** X10. From the same state, the home page shows the three figures the
    listing of [/api/devices] returns: total, online and offline; it
    always answers, and leaves the state as the listing does. *)
Theorem index_matches_listing (w : World) :
  ∃ ds page,
    result_of get_devices w = Returns ds ∧
    result_of index w = Returns page ∧
    total_devices page = total ds ∧
    online_devices_count page = online ds ∧
    offline_devices page = offline ds ∧
    state_after index w = state_after get_devices w.
Proof.
  destruct (count_online_run (known_peers w) 0 w) as (ds & w' & Hds & Hcount).
  assert (len ds = len (known_peers w)) as Hlen.
  { destruct (get_devices_run w) as (ds2 & w2 & Hrun & _ & Hviews).
    unfold get_devices in Hrun. unfold_py. rewrite get_all_peer_ids_run in Hrun.
    rewrite Hds in Hrun.
    assert (ds = ds2) as -> by (by simplify_eq).
    unfold len. f_equal. symmetry. exact (Forall2_length _ _ _ Hviews). }
  eexists _, _. unfold result_of, state_after, get_devices, index. unfold_py.
  rewrite get_all_peer_ids_run, Hds, Hcount. simpl.
  repeat split; rewrite ?Hlen; reflexivity.
Qed.

(** ** The listing as a reader *)

(** X11. The listing always answers, never with an error, and writes
    nothing: registry, monitor database, presence table and clock are as
    before.  Its counts fit its list: [total] is the number of views and
    of identities the adapter reports, [online] lies between 0 and
    [total], and [online] and [offline] add up to [total]. *)
Theorem listing_reads_only (w : World) :
  ∃ ds, result_of get_devices w = Returns ds ∧
    same_stores w (state_after get_devices w) ∧
    total ds = len (devices ds) ∧
    total ds = len (known_peers w) ∧
    0 ≤ online ds ≤ total ds ∧
    online ds + offline ds = total ds.
Proof.
  destruct (get_devices_run w) as (ds & w' & Hrun & Hsame & Hviews).
  eexists. unfold result_of, state_after. rewrite Hrun. simpl.
  split; [reflexivity|]. split; [exact Hsame|]. split; [reflexivity|].
  split; [simpl; unfold len; by rewrite (Forall2_length _ _ _ Hviews)|].
  pose proof (length_filter (λ d, Device.is_online d = true) ds) as Hfilter.
  simpl. unfold len. split; lia.
Qed.

(** ** The system-info handler in full *)

Lemma update_device_info_returns (w : World) (device_info : gmap string pyval)
    (ip_address : string) :
  DatabaseManager.update_device_info device_info ip_address w =
    (Returns (), state_after (DatabaseManager.update_device_info device_info ip_address) w).
Proof.
  unfold state_after.
  destruct (update_device_info_cases w device_info ip_address) as [->|[X HX]];
    [reflexivity|].
  by rewrite (update_device_info_run _ _ _ X HX).
Qed.

Lemma sysinfo_accepted_run (w : World) (request : Request) (body : gmap string pyval) :
  check_content_length request 51200 w = (Returns (), w) →
  json request = Some (JsonObject body) →
  let w1 := state_after (db_manager.update_device_info body (get_client_ip request)) w in
  sysinfo request w =
    (Returns (Ok "系统信息接收成功" (clock w1 (ticks w1))), set_ticks (S (ticks w1)) w1).
Proof.
  intros Hsize Hjson w1. subst w1.
  unfold sysinfo, request_json. unfold_py.
  rewrite Hsize, Hjson. simpl. rewrite update_device_info_returns. reflexivity.
Qed.

(** What a system-info request does: nothing, nothing but one reading of
    the clock for an error answer, or the report followed by one reading
    for the answer. *)
Lemma sysinfo_cases (w : World) (request : Request) :
  sysinfo request w = (Raises (HTTPException 413 "请求体过大"), w) ∨
  sysinfo request w = (Raises (HTTPException 400 "无效的请求格式"), w) ∨
  sysinfo request w =
    (Returns (JSONResponse 500 "内部服务器错误" (clock w (ticks w))),
     set_ticks (S (ticks w)) w) ∨
  ∃ body,
    check_content_length request 51200 w = (Returns (), w) ∧
    json request = Some (JsonObject body).
Proof.
  destruct (check_content_length_cases request 51200 w) as [Hsize|[Hsize|Hsize]].
  - destruct (json request) as [[body|]|] eqn:Hjson.
    + right. right. right. by exists body.
    + right. left. unfold sysinfo, request_json. unfold_py.
      rewrite Hsize, Hjson. reflexivity.
    + right. right. left. unfold sysinfo, request_json. unfold_py.
      rewrite Hsize, Hjson. reflexivity.
  - left. unfold sysinfo. unfold_py. rewrite Hsize. reflexivity.
  - right. right. left. unfold sysinfo. unfold_py. rewrite Hsize. reflexivity.
Qed.

(** X12. No system-info request changes the registry, the presence
    table, the heartbeat log or a note: a report never makes a device
    online.  Of the telemetry rows it changes at most the one of the
    device it names. *)
Theorem sysinfo_keeps_other_stores (w : World) (request : Request) :
  let w' := state_after (sysinfo request) w in
  peer_db w' = peer_db w ∧ online_devices w' = online_devices w ∧ clock w' = clock w ∧
  logs w' = logs w ∧
  MonitorDb.heartbeat_seq (monitor_db w') = MonitorDb.heartbeat_seq (monitor_db w) ∧
  MonitorDb.device_notes (monitor_db w') = MonitorDb.device_notes (monitor_db w) ∧
  ∀ Y, MonitorDb.device_info (monitor_db w') !! Y = MonitorDb.device_info (monitor_db w) !! Y ∨
       ∃ body, json request = Some (JsonObject body) ∧ reports Y body.
Proof.
  intros w'. subst w'. unfold state_after at 1 2 3 4 5 6 7.
  destruct (sysinfo_cases w request) as [->|[->|[->|(body & Hsize & Hjson)]]];
    try (simpl; repeat split; by left).
  rewrite (sysinfo_accepted_run w request body Hsize Hjson). simpl.
  destruct (update_device_info_step w body (get_client_ip request)) as [->|(X & HX & ->)].
  - repeat split; by left.
  - simpl. repeat split. intros Y. destruct (decide (X = Y)) as [<-|Hne].
    + right. by exists body.
    + left. by rewrite lookup_insert_ne.
Qed.

(** X13. A system-info report that passes the size check but names no
    device is acknowledged with the ok answer and stores nothing.  The
    request fails in three ways only, none of which changes a store: 413
    for a declared length over 51200, 400 for a body that is not an
    object, 500 when the declared length or the body cannot be parsed. *)
Theorem sysinfo_without_id_is_acknowledged (w : World) (request : Request) :
  let w' := state_after (sysinfo request) w in
  (∀ body,
     result_of (check_content_length request 51200) w = Returns () →
     json request = Some (JsonObject body) →
     py_bool (dict_get body "id" PyNone) = false →
     result_of (sysinfo request) w = Returns (Ok "系统信息接收成功" (clock w (ticks w))) ∧
     same_stores w w') ∧
  match result_of (sysinfo request) w with
  | Returns (Ok _ _) => True
  | Returns (JSONResponse status _ _) =>
      status = 500 ∧ same_stores w w' ∧
      (json request = None ∨
       ∃ v, headers request !! "content-length" = Some v ∧ int_of_str v = None)
  | Raises (HTTPException status _) =>
      same_stores w w' ∧
      ((status = 413 ∧ ∃ v n, headers request !! "content-length" = Some v ∧
                        int_of_str v = Some n ∧ 51200 < n) ∨
       (status = 400 ∧ json request = Some JsonOther))
  | Raises _ => False
  end.
Proof.
  intros w'. subst w'. split.
  - intros body Hsize Hjson Hid.
    assert (check_content_length request 51200 w = (Returns (), w)) as Hcheck.
    { pose proof (check_content_length_state request 51200 w) as Hst.
      unfold result_of in Hsize.
      destruct (check_content_length request 51200 w) as [r w0]. simpl in *. congruence. }
    unfold result_of, state_after.
    rewrite (sysinfo_accepted_run w request body Hcheck Hjson).
    unfold state_after. rewrite (update_device_info_without_id w body _ Hid). simpl.
    split; [reflexivity | by repeat split].
  - assert (∀ w0 : World, same_stores w0 w0) as Hsame by (by repeat split).
    assert (∀ w0 : World, same_stores w0 (set_ticks (S (ticks w0)) w0)) as Hsame'
      by (by repeat split).
    unfold result_of, state_after, sysinfo, request_json,
      check_content_length, DatabaseManager.py_int.
    destruct (headers request !! "content-length") as [v|] eqn:Hheader.
    + destruct (str_bool v) eqn:Htrue.
      * destruct (int_of_str v) as [n|] eqn:Hint.
        -- unfold_py. simpl. destruct (51200 <? n) eqn:Hover; simpl.
           { split; [apply Hsame|]. left. split; [reflexivity|].
             exists v, n. split; [reflexivity|]. split; [assumption|]. by apply Z.ltb_lt. }
           destruct (json request) as [[body|]|] eqn:Hjson; simpl.
           ++ by rewrite update_device_info_returns.
           ++ split; [apply Hsame|]. right. by split.
           ++ split; [reflexivity|]. split; [apply Hsame'|]. by left.
        -- unfold_py. simpl. split; [reflexivity|]. split; [apply Hsame'|].
           right. by exists v.
      * unfold_py. simpl. destruct (json request) as [[body|]|] eqn:Hjson; simpl.
        -- by rewrite update_device_info_returns.
        -- split; [apply Hsame|]. right. by split.
        -- split; [reflexivity|]. split; [apply Hsame'|]. by left.
    + unfold_py. simpl. destruct (json request) as [[body|]|] eqn:Hjson; simpl.
      * by rewrite update_device_info_returns.
      * split; [apply Hsame|]. right. by split.
      * split; [reflexivity|]. split; [apply Hsame'|]. by left.
Qed.

(** ** What the listing shows after a request *)

(** The views of the listing and the identities of the adapter, one for
    one. *)
Lemma listing_views (w : World) :
  ∃ ds, result_of get_devices w = Returns ds ∧
    (∀ d, d ∈ devices ds →
       ∃ peer, peer ∈ known_peers w ∧ merged_view w (ticks w) peer d) ∧
    (∀ peer, peer ∈ known_peers w →
       ∃ d, d ∈ devices ds ∧ merged_view w (ticks w) peer d).
Proof.
  destruct (get_devices_run w) as (ds & w' & Hrun & _ & Hviews).
  eexists. unfold result_of. rewrite Hrun. simpl. split; [reflexivity|]. split.
  - intros d [i Hi]%list_elem_of_lookup.
    destruct (Forall2_lookup_r _ _ _ _ _ Hviews Hi) as (peer & Hpeer & Hview).
    exists peer. split; [|assumption]. apply list_elem_of_lookup. by exists i.
  - intros peer [i Hi]%list_elem_of_lookup.
    destruct (Forall2_lookup_l _ _ _ _ _ Hviews Hi) as (d & Hd & Hview).
    exists d. split; [|assumption]. apply list_elem_of_lookup. by exists i.
Qed.

Lemma known_peers_id (w : World) (X : string) :
  X ∈ Peer.id <$> known_peers w → ∃ peer, peer ∈ known_peers w ∧ Peer.id peer = X.
Proof. intros (peer & -> & Hpeer)%list_elem_of_fmap. by exists peer. Qed.

(** X14. After a system-info report that passes the size check and names
    a device [X], every view the listing gives for [X] shows the report:
    each of hostname, username, os, cpu, memory and version is the
    reported value cut to its length, or empty when the report left it
    out, and [last_ip] is the address the report came from, not the one
    of the registry.  If the registry adapter reports [X], the listing
    has such a view. *)
Theorem report_shows_in_listing
    (w : World) (request : Request) (body : gmap string pyval) (X : string) :
  result_of (check_content_length request 51200) w = Returns () →
  json request = Some (JsonObject body) →
  reports X body →
  let w' := state_after (sysinfo request) w in
  ∃ ds, result_of get_devices w' = Returns ds ∧
    (X ∈ Peer.id <$> known_peers w → ∃ d, d ∈ devices ds ∧ Device.id d = X) ∧
    ∀ d, d ∈ devices ds → Device.id d = X →
      Device.hostname d = slice_to 255 (py_str (dict_get body "hostname" (PyStr ""))) ∧
      Device.username d = slice_to 255 (py_str (dict_get body "username" (PyStr ""))) ∧
      Device.os d = slice_to 500 (py_str (dict_get body "os" (PyStr ""))) ∧
      Device.cpu d = slice_to 500 (py_str (dict_get body "cpu" (PyStr ""))) ∧
      Device.memory d = slice_to 100 (py_str (dict_get body "memory" (PyStr ""))) ∧
      Device.version d = slice_to 50 (py_str (dict_get body "version" (PyStr ""))) ∧
      Device.last_ip d = slice_to 45 (get_client_ip request).
Proof.
  intros Hsize Hjson Hreports w'.
  assert (check_content_length request 51200 w = (Returns (), w)) as Hcheck.
  { pose proof (check_content_length_state request 51200 w) as Hst.
    unfold result_of in Hsize.
    destruct (check_content_length request 51200 w) as [r w0]. simpl in *. congruence. }
  assert (w' = set_ticks (S (S (ticks w)))
                 (set_monitor_db
                    (upserted X (reported_row body (get_client_ip request)
                                   (clock w (ticks w))) (monitor_db w)) w)) as Hw'.
  { subst w'. unfold state_after at 1.
    rewrite (sysinfo_accepted_run w request body Hcheck Hjson).
    by rewrite (update_device_info_state _ _ _ X Hreports). }
  assert (MonitorDb.device_info (monitor_db w') !! X =
            Some (stored_row (MonitorDb.device_info (monitor_db w) !! X)
                    (reported_row body (get_client_ip request) (clock w (ticks w)))))
    as Hrow by (rewrite Hw'; simpl; apply lookup_insert_eq).
  assert (known_peers w' = known_peers w) as Hknown
    by (apply known_peers_ext; by rewrite Hw').
  destruct (listing_views w') as (ds & Hds & Hfrom & Hto).
  exists ds. split; [exact Hds|]. split.
  - intros (peer & Hpeer & Hid)%known_peers_id. rewrite <- Hknown in Hpeer.
    destruct (Hto peer Hpeer) as (d & Hd & Hview).
    exists d. split; [assumption|]. destruct Hview as [-> _]. exact Hid.
  - intros d Hd Hid. destruct (Hfrom d Hd) as (peer & _ & Hview).
    unfold merged_view in Hview.
    destruct Hview as (Hpid & _ & _ & _ & H1 & H2 & H3 & H4 & H5 & H6 & H7 & _).
    rewrite <- Hpid, Hid, Hrow in H1, H2, H3, H4, H5, H6, H7.
    by repeat split.
Qed.

Lemma report_shows_in_listing_witness :
  let w := world_with (Some registry_BA) in
  let request := request_with None 40
                   (Some (JsonObject {[ "id" := PyStr "A"; "hostname" := PyStr "pc-17" ]})) in
  reports "A" {[ "id" := PyStr "A"; "hostname" := PyStr "pc-17" ]} ∧
  ∃ ds d, result_of get_devices (state_after (sysinfo request) w) = Returns ds ∧
    d ∈ devices ds ∧ Device.id d = "A" ∧
    Device.hostname d = "pc-17" ∧ Device.os d = "" ∧ Device.last_ip d = "10.0.0.9".
Proof.
  intros w request.
  assert (reports "A" {[ "id" := PyStr "A"; "hostname" := PyStr "pc-17" ]}) as Hreports
    by (split; [reflexivity | split; [reflexivity | discriminate]]).
  split; [exact Hreports|].
  destruct (report_shows_in_listing w request
              {[ "id" := PyStr "A"; "hostname" := PyStr "pc-17" ]} "A")
    as (ds & Hds & Hsome & Hall); [reflexivity | reflexivity | exact Hreports |].
  destruct Hsome as (d & Hd & Hid).
  { apply (bool_decide_unpack _). vm_compute. exact I. }
  destruct (Hall d Hd Hid) as (H1 & _ & H3 & _ & _ & _ & H7).
  exists ds, d. repeat split; assumption.
Defined.

(** ** The note handler *)

Lemma note_request_accepted_run (w : World) (request : Request) (body : gmap string pyval) :
  json request = Some (JsonObject body) →
  py_bool (dict_get body "device_id" PyNone) = true →
  update_device_note request w =
    (Returns (Ok "备注更新成功" (clock w (S (ticks w)))),
     set_ticks (S (S (ticks w)))
       (set_monitor_db
          (DatabaseManager.replace_device_note
             (slice_to 255 (py_str (dict_get body "device_id" PyNone)))
             (DeviceNote.make (slice_to 500 (py_str (dict_get body "note" (PyStr ""))))
                (clock w (ticks w)))
             (monitor_db w))
          w)).
Proof.
  intros Hjson Hid. unfold update_device_note, request_json. unfold_py.
  rewrite Hjson. simpl. rewrite Hid. reflexivity.
Qed.

Lemma note_request_without_id_run (w : World) (request : Request)
    (body : gmap string pyval) :
  json request = Some (JsonObject body) →
  py_bool (dict_get body "device_id" PyNone) = false →
  update_device_note request w = (Raises (HTTPException 400 "设备ID不能为空"), w).
Proof.
  intros Hjson Hid. unfold update_device_note, request_json. unfold_py.
  rewrite Hjson. simpl. rewrite Hid. reflexivity.
Qed.

Lemma note_request_not_object_run (w : World) (request : Request) :
  json request = None ∨ json request = Some JsonOther →
  update_device_note request w = (Raises (HTTPException 500 "更新备注失败"), w).
Proof.
  intros [Hjson|Hjson]; unfold update_device_note, request_json; unfold_py;
    rewrite Hjson; reflexivity.
Qed.

(** X15. The note handler refuses a request without a device id with
    status 400 and a body that is not a JSON object, or not JSON, with
    status 500; in both cases nothing changes, the clock included.  It
    has no size check: every other request is acknowledged. *)
Theorem note_request_outcomes (w : World) (request : Request) :
  match json request with
  | Some (JsonObject body) =>
      if py_bool (dict_get body "device_id" PyNone)
      then ∃ t, result_of (update_device_note request) w = Returns (Ok "备注更新成功" t)
      else update_device_note request w = (Raises (HTTPException 400 "设备ID不能为空"), w)
  | _ => update_device_note request w = (Raises (HTTPException 500 "更新备注失败"), w)
  end.
Proof.
  destruct (json request) as [[body|]|] eqn:Hjson.
  - destruct (py_bool (dict_get body "device_id" PyNone)) eqn:Hid.
    + eexists. unfold result_of.
      by rewrite (note_request_accepted_run w request body Hjson Hid).
    + by apply (note_request_without_id_run w request body).
  - apply note_request_not_object_run. by right.
  - apply note_request_not_object_run. by left.
Qed.

(** X16. After a note request with a device id, every view the listing
    gives for the first 255 characters of that id shows the note of the
    request cut to 500 characters, the empty text when the request has no
    note.  The request changes no telemetry row, no heartbeat log row, no
    presence entry and no note of another device. *)
Theorem note_shows_in_listing (w : World) (request : Request) (body : gmap string pyval) :
  json request = Some (JsonObject body) →
  py_bool (dict_get body "device_id" PyNone) = true →
  let X := slice_to 255 (py_str (dict_get body "device_id" PyNone)) in
  let w' := state_after (update_device_note request) w in
  (∃ ds, result_of get_devices w' = Returns ds ∧
     ∀ d, d ∈ devices ds → Device.id d = X →
       Device.note d = slice_to 500 (py_str (dict_get body "note" (PyStr "")))) ∧
  peer_db w' = peer_db w ∧ online_devices w' = online_devices w ∧
  MonitorDb.device_info (monitor_db w') = MonitorDb.device_info (monitor_db w) ∧
  logs w' = logs w ∧
  ∀ Y, Y ≠ X →
    MonitorDb.device_notes (monitor_db w') !! Y = MonitorDb.device_notes (monitor_db w) !! Y.
Proof.
  intros Hjson Hid X w'. subst w'. unfold state_after.
  rewrite (note_request_accepted_run w request body Hjson Hid). simpl.
  fold X. set (w' := set_ticks _ _). split.
  - destruct (listing_views w') as (ds & Hds & Hfrom & _).
    exists ds. split; [exact Hds|]. intros d Hd HdX.
    destruct (Hfrom d Hd) as (peer & _ & Hview).
    destruct Hview as (Hpid & Hnote & _).
    rewrite Hnote, <- Hpid, HdX. subst w'. simpl. by rewrite lookup_insert_eq.
  - repeat split. intros Y HY. subst w'. simpl. by rewrite lookup_insert_ne.
Qed.

Lemma note_shows_in_listing_witness :
  let w := world_with (Some registry_BA) in
  let body : gmap string pyval := {[ "device_id" := PyStr "A"; "note" := PyStr "desk 4" ]} in
  let request := request_with None 40 (Some (JsonObject body)) in
  py_bool (dict_get body "device_id" PyNone) = true ∧
  ∃ ds, result_of get_devices (state_after (update_device_note request) w) = Returns ds ∧
    ∀ d, d ∈ devices ds → Device.id d = "A" → Device.note d = "desk 4".
Proof.
  intros w body request. split; [reflexivity|].
  destruct (note_shows_in_listing w request body) as [(ds & Hds & Hnote) _];
    [reflexivity | reflexivity |].
  exists ds. split; [exact Hds | exact Hnote].
Defined.

(** X17. After a heartbeat that passes the size check and carries a
    device id, every view the listing gives for the first 255 characters
    of the id shows the time of that heartbeat, not the text for a device
    never heard of, and shows the device online exactly when the reading
    of the clock made for the view is less than 90 seconds after it. *)
Theorem heartbeat_shows_in_listing
    (w : World) (request : Request) (body : gmap string pyval) :
  result_of (check_content_length request 10240) w = Returns () →
  json request = Some (JsonObject body) →
  py_bool (dict_get body "id" PyNone) = true →
  let X := slice_to 255 (py_str (dict_get body "id" PyNone)) in
  let w' := state_after (heartbeat request) w in
  ∃ n ds, (ticks w ≤ n ≤ S (ticks w))%nat ∧
    result_of get_devices w' = Returns ds ∧
    ∀ d, d ∈ devices ds → Device.id d = X →
      Device.last_heartbeat_time d = strftime (clock w n) ∧
      ∃ m, (S n < m)%nat ∧
        (Device.is_online d = true ↔ clock w m - clock w n < timedelta 90).
Proof.
  intros Hsize Hjson Hid X w'.
  assert (check_content_length request 10240 w = (Returns (), w)) as Hcheck.
  { pose proof (check_content_length_state request 10240 w) as Hst.
    unfold result_of in Hsize.
    destruct (check_content_length request 10240 w) as [r w0]. simpl in *. congruence. }
  destruct (log_heartbeat_frame w X (get_client_ip request)
              (dict_get body "ver" (PyInt 0)))
    as (w1 & Hlog & Hclock & Hticks).
  assert (clock w' = clock w ∧ ticks w' = S (S (ticks w1)) ∧
          online_devices w' !! X =
            Some (Online.make (clock w (ticks w1)) (get_client_ip request) body))
    as (Hclock' & Hticks' & Hentry).
  { subst w'. unfold state_after.
    rewrite (heartbeat_accepted_run w w1 request body Hcheck Hjson Hid Hlog). simpl.
    rewrite Hclock. split; [reflexivity|]. split; [reflexivity|]. apply lookup_insert_eq. }
  destruct (listing_views w') as (ds & Hds & Hfrom & _).
  exists (ticks w1), ds. split; [exact Hticks|]. split; [exact Hds|].
  intros d Hd HdX. destruct (Hfrom d Hd) as (peer & _ & Hview).
  unfold merged_view in Hview.
  destruct Hview as (Hpid & _ & _ & _ & _ & _ & _ & _ & _ & _ & _ & Hpresence).
  rewrite <- Hpid, HdX, Hentry in Hpresence. simpl in Hpresence.
  destruct Hpresence as [(m & Hm & Honline) Hshown].
  split; [exact Hshown|]. exists m. split; [lia|].
  rewrite Honline, Hclock'. apply Z.ltb_lt.
Qed.

Lemma heartbeat_shows_in_listing_witness :
  let w := world_with (Some registry_BA) in
  py_bool (dict_get {[ "id" := PyStr "A"; "ver" := PyInt 1002003 ]} "id" PyNone) = true ∧
  ∃ n ds, result_of get_devices (state_after (heartbeat heartbeat_A) w) = Returns ds ∧
    ∀ d, d ∈ devices ds → Device.id d = "A" →
      Device.last_heartbeat_time d = strftime (clock w n).
Proof.
  intros w. split; [reflexivity|].
  destruct (heartbeat_shows_in_listing w heartbeat_A
              {[ "id" := PyStr "A"; "ver" := PyInt 1002003 ]})
    as (n & ds & _ & Hds & Hviews); [reflexivity..|].
  exists n, ds. split; [exact Hds|].
  intros d Hd Hid. by destruct (Hviews d Hd Hid).
Defined.

(** ** The bounds of the stored texts *)

Lemma stores_bounded_ext (w w' : World) :
  monitor_db w' = monitor_db w → stores_bounded w → stores_bounded w'.
Proof.
  unfold stores_bounded, telemetry_bounded, logs_bounded, notes_bounded, logs.
  by intros ->.
Qed.

Lemma log_heartbeat_bounded (w : World) (device_id ip_address : string) (version : pyval) :
  stores_bounded w →
  stores_bounded (state_after (DatabaseManager.log_heartbeat device_id ip_address version) w).
Proof.
  intros Hw. unfold state_after.
  destruct (log_heartbeat_run w device_id ip_address version)
    as (w1 & -> & [->|[->|(stored & Hstored & ->)]]); simpl; try assumption.
  destruct Hw as (Htel & Hlogs & Hnotes). split; [exact Htel|]. split; [|exact Hnotes].
  intros k row Hrow. unfold logs in Hrow. simpl in Hrow.
  apply map_lookup_filter_Some in Hrow as [Hrow _].
  apply lookup_insert_Some in Hrow as [[_ <-]|[_ Hrow]].
  - simpl. split; [apply slice_to_length|]. split; [apply slice_to_length|assumption].
  - by apply (Hlogs k).
Qed.

Lemma update_device_info_bounded (w : World) (device_info : gmap string pyval)
    (ip_address : string) :
  stores_bounded w →
  stores_bounded (state_after (DatabaseManager.update_device_info device_info ip_address) w).
Proof.
  intros Hw.
  destruct (update_device_info_step w device_info ip_address) as [->|(X & _ & ->)];
    [assumption|].
  destruct Hw as (Htel & Hlogs & Hnotes). split; [|split; [exact Hlogs|exact Hnotes]].
  intros Y row Hrow. simpl in Hrow.
  apply lookup_insert_Some in Hrow as [[_ <-]|[_ Hrow]].
  - unfold telemetry_row_bounded, stored_row, reported_row. simpl.
    repeat split; apply slice_to_length.
  - by apply (Htel Y).
Qed.

Lemma update_device_note_bounded (w : World) (device_id note : pyval) :
  stores_bounded w →
  stores_bounded (state_after (DatabaseManager.update_device_note device_id note) w).
Proof.
  intros (Htel & Hlogs & Hnotes). unfold state_after. rewrite update_device_note_run.
  split; [exact Htel|]. split; [exact Hlogs|].
  intros Y row Hrow. simpl in Hrow.
  apply lookup_insert_Some in Hrow as [[<- <-]|[_ Hrow]].
  - simpl. split; apply slice_to_length.
  - by apply (Hnotes Y).
Qed.

(** X18. No request to the heartbeat, system-info or note endpoint,
    whatever its headers and body, takes the monitor database out of the
    bounds of its columns: telemetry texts of at most 255, 255, 500, 500,
    100, 50 and 255 characters and an address of at most 45, heartbeat
    log rows with an id of at most 255 characters, an address of at most
    45 and a version that is absent or in the range 0 to 2^63 - 1, and
    notes of at most 500 characters under keys of at most 255. *)
Theorem requests_keep_stores_bounded (w : World) (request : Request) :
  stores_bounded w →
  stores_bounded (state_after (heartbeat request) w) ∧
  stores_bounded (state_after (sysinfo request) w) ∧
  stores_bounded (state_after (update_device_note request) w).
Proof.
  intros Hw. split; [|split].
  - destruct (heartbeat_cases w request)
      as [->|[->|(body & w1 & Hsize & Hjson & Hid & Hlog)]]; try assumption.
    unfold state_after. rewrite (heartbeat_accepted_run w w1 request body); try assumption.
    simpl.
    pose proof (log_heartbeat_bounded w (slice_to 255 (py_str (dict_get body "id" PyNone)))
                  (get_client_ip request) (dict_get body "ver" (PyInt 0)) Hw) as Hw1.
    unfold state_after in Hw1. change db_manager.log_heartbeat
      with DatabaseManager.log_heartbeat in Hlog. rewrite Hlog in Hw1.
    by apply (stores_bounded_ext w1).
  - unfold state_after.
    destruct (sysinfo_cases w request) as [->|[->|[->|(body & Hsize & Hjson)]]];
      try assumption.
    rewrite (sysinfo_accepted_run w request body Hsize Hjson). simpl.
    apply (stores_bounded_ext
             (state_after (db_manager.update_device_info body (get_client_ip request)) w));
      [reflexivity|].
    by apply update_device_info_bounded.
  - unfold state_after. destruct (json request) as [[body|]|] eqn:Hjson.
    + destruct (py_bool (dict_get body "device_id" PyNone)) eqn:Hid.
      * rewrite (note_request_accepted_run w request body Hjson Hid). simpl.
        pose proof (update_device_note_bounded w (dict_get body "device_id" PyNone)
                      (dict_get body "note" (PyStr "")) Hw) as Hw1.
        unfold state_after in Hw1. rewrite update_device_note_run in Hw1.
        by apply (stores_bounded_ext _ _ eq_refl) in Hw1.
      * by rewrite (note_request_without_id_run w request body Hjson Hid).
    + rewrite note_request_not_object_run; [assumption | by right].
    + rewrite note_request_not_object_run; [assumption | by left].
Qed.

Lemma requests_keep_stores_bounded_witness :
  let w := world_with (Some registry_BA) in
  stores_bounded w ∧ stores_bounded (state_after (heartbeat heartbeat_A) w).
Proof.
  intros w.
  assert (stores_bounded w) as Hw.
  { split; [|split]; intros k row Hrow; discriminate Hrow. }
  split; [exact Hw|].
  by destruct (requests_keep_stores_bounded w heartbeat_A Hw) as [Hheartbeat _].
Defined.

(** ** The registry as the listing sees it *)






(** ** The address of the registry in the listing *)





